(** * apigen: naming engine, model analysis, route synthesis, schema generation

    A shallow embedding of the Go package [apigen] (apigen.go, analyzer.go,
    handlers.go, swagger.go) and the properties of its specification.

    Conventions of the embedding.
    - Go strings are [string]s, read as ASCII text, the alphabet of the
      identifiers, tags and paths this package handles; on ASCII a byte index
      is a rune index, and [unicode.IsUpper], [unicode.ToLower] and
      [unicode.ToUpper] are the functions below. What depends on the case
      of a letter is stated for ASCII strings.
    - [map[string]T] is [gmap string T]; a read of a missing key gives the
      zero value, as in Go.
    - The router and the database are collaborators: the router is the list
      of the bindings it holds and panics when asked for a binding it holds
      already, the database is an oracle answering the operations a handler
      issues, and a handler returns the operations it issued together with
      its response. *)

From Stdlib Require Import String Ascii List ZArith Lia Bool Permutation.
From Stdlib Require Import DecimalString.
From stdpp Require Import base gmap strings list fin_maps.

Local Open Scope string_scope.
Local Open Scope list_scope.

(** ** Package strings and unicode (the functions this package calls) *)

Module GoStrings.

(** A string is modelled by its bytes. On an ASCII string (every byte
    below 128) the runes that [range] yields are its bytes, and the tables
    of package unicode are the ones below; off ASCII they are not, so what
    depends on the case of a letter is stated for ASCII strings. *)

(** [unicode.IsUpper] on a rune below 128: 'A' (65) to 'Z' (90). *)
Definition IsUpper (r : ascii) : bool :=
  let n := nat_of_ascii r in (65 <=? n)%nat && (n <=? 90)%nat.

Definition IsLower (r : ascii) : bool :=
  let n := nat_of_ascii r in (97 <=? n)%nat && (n <=? 122)%nat.

(** [unicode.ToLower] and [unicode.ToUpper] on a rune below 128. *)
Definition ToLower (r : ascii) : ascii :=
  if IsUpper r then ascii_of_nat (nat_of_ascii r + 32) else r.

Definition ToUpper (r : ascii) : ascii :=
  if IsLower r then ascii_of_nat (nat_of_ascii r - 32) else r.

(** [strings.HasSuffix]:
    [len(s) >= len(suffix) && s[len(s)-len(suffix):] == suffix]. *)
Definition HasSuffix (s suffix : string) : bool :=
  (String.length suffix <=? String.length s)%nat
  && String.eqb
       (substring (String.length s - String.length suffix)
                  (String.length suffix) s)
       suffix.

(** [strings.TrimSuffix]: [s[:len(s)-len(suffix)]] when [s] has the
    suffix, [s] otherwise. *)
Definition TrimSuffix (s suffix : string) : string :=
  if HasSuffix s suffix
  then substring 0 (String.length s - String.length suffix) s
  else s.

(** [strings.HasPrefix]. *)
Definition HasPrefix (s pre : string) : bool := String.prefix pre s.

(** [strings.Contains(s, substr)]. *)
Fixpoint Contains (s substr : string) : bool :=
  HasPrefix s substr
  || match s with
     | EmptyString => false
     | String _ rest => Contains rest substr
     end.

(** [strings.Split(s, sep)[0]] for a one-character separator: the text
    before the first separator, the whole string when there is none. *)
Fixpoint SplitHead (s : string) (sep : ascii) : string :=
  match s with
  | EmptyString => EmptyString
  | String c rest =>
      if Ascii.eqb c sep then EmptyString else String c (SplitHead rest sep)
  end.

End GoStrings.

(** ** Naming engine (apigen.go) *)

Module Naming.
Import GoStrings.

(** The loop of [toSnakeCase]: [i] is the index of the next rune. *)
Fixpoint snakeLoop (i : nat) (s : string) : string :=
  match s with
  | EmptyString => EmptyString
  | String r rest =>
      if IsUpper r then
        if (0 <? i)%nat
        then String "_" (String (ToLower r) (snakeLoop (S i) rest))
        else String (ToLower r) (snakeLoop (S i) rest)
      else String r (snakeLoop (S i) rest)
  end.

Definition toSnakeCase (s : string) : string := snakeLoop 0 s.

(** The loop of [toCamelCase]: [nextUpper] is the loop's flag. *)
Fixpoint camelLoop (nextUpper : bool) (s : string) : string :=
  match s with
  | EmptyString => EmptyString
  | String r rest =>
      if Ascii.eqb r "_" then camelLoop true rest
      else if nextUpper then String (ToUpper r) (camelLoop false rest)
      else String r (camelLoop nextUpper rest)
  end.

Definition toCamelCase (s : string) : string := camelLoop false s.

Definition pluralize (s : string) : string :=
  if HasSuffix s "y" then TrimSuffix s "y" +:+ "ies"
  else if HasSuffix s "s" || HasSuffix s "x" || HasSuffix s "z"
          || HasSuffix s "ch" || HasSuffix s "sh"
  then s +:+ "es"
  else s +:+ "s".

End Naming.

(** ** Package reflect: the part of a type the package inspects *)

Module Reflect.

(** [reflect.Kind]. The constructors carry a [K] since [Bool] and [String]
    are taken. *)
Inductive Kind : Set :=
| KInvalid | KBool
| KInt | KInt8 | KInt16 | KInt32 | KInt64
| KUint | KUint8 | KUint16 | KUint32 | KUint64 | KUintptr
| KFloat32 | KFloat64 | KComplex64 | KComplex128
| KArray | KChan | KFunc | KInterface | KMap | KPtr | KSlice
| KString | KStruct | KUnsafePointer.

Definition Kind_eqb (a b : Kind) : bool :=
  match a, b with
  | KInvalid, KInvalid | KBool, KBool | KInt, KInt | KInt8, KInt8
  | KInt16, KInt16 | KInt32, KInt32 | KInt64, KInt64 | KUint, KUint
  | KUint8, KUint8 | KUint16, KUint16 | KUint32, KUint32
  | KUint64, KUint64 | KUintptr, KUintptr | KFloat32, KFloat32
  | KFloat64, KFloat64 | KComplex64, KComplex64
  | KComplex128, KComplex128 | KArray, KArray | KChan, KChan
  | KFunc, KFunc | KInterface, KInterface | KMap, KMap | KPtr, KPtr
  | KSlice, KSlice | KString, KString | KStruct, KStruct
  | KUnsafePointer, KUnsafePointer => true
  | _, _ => false
  end.

(** [Kind.String()]. *)
Definition KindString (k : Kind) : string :=
  match k with
  | KInvalid => "invalid" | KBool => "bool"
  | KInt => "int" | KInt8 => "int8" | KInt16 => "int16"
  | KInt32 => "int32" | KInt64 => "int64"
  | KUint => "uint" | KUint8 => "uint8" | KUint16 => "uint16"
  | KUint32 => "uint32" | KUint64 => "uint64" | KUintptr => "uintptr"
  | KFloat32 => "float32" | KFloat64 => "float64"
  | KComplex64 => "complex64" | KComplex128 => "complex128"
  | KArray => "array" | KChan => "chan" | KFunc => "func"
  | KInterface => "interface" | KMap => "map" | KPtr => "ptr"
  | KSlice => "slice" | KString => "string" | KStruct => "struct"
  | KUnsafePointer => "unsafe.Pointer"
  end.

(** [reflect.StructField]: name, type, tag and the embedded flag. A tag
    is kept parsed, as the list of its [key:"value"] pairs in order. *)
Record StructFieldOf (T : Type) : Type := mkStructField {
  sfName : string;
  sfType : T;
  sfTag : list (string * string);
  sfAnonymous : bool
}.
Arguments mkStructField {T} _ _ _ _.
Arguments sfName {T} _.
Arguments sfType {T} _.
Arguments sfTag {T} _.
Arguments sfAnonymous {T} _.

(** [reflect.Type], as a finite tree. [TBasic k] is a type without
    element structure, of a kind [k] other than struct, slice, array, map
    and pointer; [TStruct pkg name fields] is a struct type declared as
    [name] in package [pkg] (both empty for an unnamed struct). *)
#[warnings="-register-all"]
Inductive GoType : Type :=
| TBasic (k : Kind)
| TStruct (pkg name : string) (fields : list (StructFieldOf GoType))
| TSlice (elem : GoType)
| TArray (len : nat) (elem : GoType)
| TMap (key elem : GoType)
| TPtr (elem : GoType).

Definition StructField : Type := StructFieldOf GoType.

Definition TypeKind (t : GoType) : Kind :=
  match t with
  | TBasic k => k
  | TStruct _ _ _ => KStruct
  | TSlice _ => KSlice
  | TArray _ _ => KArray
  | TMap _ _ => KMap
  | TPtr _ => KPtr
  end.

(** [Type.Name()]: the declared name, empty for an unnamed type. *)
Definition TypeName (t : GoType) : string :=
  match t with
  | TBasic k => KindString k
  | TStruct _ name _ => name
  | _ => ""
  end.

(** [Type.String()]: the package-qualified name of a declared struct
    type, the composite spelling otherwise. *)
Fixpoint TypeString (t : GoType) : string :=
  match t with
  | TBasic k => KindString k
  | TStruct pkg name _ =>
      if String.eqb name "" then "struct {...}"
      else if String.eqb pkg "" then name else pkg +:+ "." +:+ name
  | TSlice e => "[]" +:+ TypeString e
  | TArray n e =>
      "[" +:+ NilEmpty.string_of_uint (Nat.to_uint n) +:+ "]"
      +:+ TypeString e
  | TMap k e => "map[" +:+ TypeString k +:+ "]" +:+ TypeString e
  | TPtr e => "*" +:+ TypeString e
  end.

(** [Type.Elem()] of a pointer. *)
Definition PtrElem (t : GoType) : GoType :=
  match t with TPtr e => e | _ => t end.

(** [Type.NumField()] and [Type.Field(i)], as the list of fields. *)
Definition TypeFields (t : GoType) : list StructField :=
  match t with TStruct _ _ fs => fs | _ => [] end.

(** [StructTag.Get(key)]: the value of the first pair with that key, the
    empty string when there is none. *)
Fixpoint TagGet (tag : list (string * string)) (key : string) : string :=
  match tag with
  | [] => ""
  | (k, v) :: rest => if String.eqb k key then v else TagGet rest key
  end.

(** The fields called [name] found [depth] embeddings below [t]. *)
Fixpoint fieldsAtDepth (depth : nat) (name : string) (t : GoType)
  : list StructField :=
  match depth with
  | O => filter (fun f => String.eqb (sfName f) name = true) (TypeFields t)
  | S d =>
      flat_map
        (fun f =>
           if sfAnonymous f then fieldsAtDepth d name (PtrElem (sfType f))
           else [])
        (TypeFields t)
  end.

(** The search of [FieldByName]: depth by depth, the shallowest depth
    with a match decides, and two matches there hide each other. *)
Fixpoint fieldSearch (fuel depth : nat) (name : string) (t : GoType)
  : option StructField :=
  match fieldsAtDepth depth name t with
  | [f] => Some f
  | _ :: _ :: _ => None
  | [] =>
      match fuel with
      | O => None
      | S fuel' => fieldSearch fuel' (S depth) name t
      end
  end.

(** The number of struct levels of a type: no field lies deeper. *)
Fixpoint structDepth (t : GoType) : nat :=
  match t with
  | TStruct _ _ fs =>
      S (fold_right (fun f acc => Nat.max (structDepth (sfType f)) acc) 0 fs)
  | TPtr e => structDepth e
  | _ => 0
  end.

(** [Type.FieldByName(name)]. *)
Definition FieldByName (t : GoType) (name : string) : option StructField :=
  fieldSearch (structDepth t) 0 name t.

End Reflect.

(** ** Model metadata and the generator (apigen.go) *)

Module Apigen.
Import GoStrings Naming Reflect.

(** [FieldInfo]; the field [Type] of the source is [FType] here. *)
Record FieldInfo : Type := mkFieldInfo {
  Name : string;
  JSONName : string;
  FType : GoType;
  IsID : bool;
  OmitEmpty : bool
}.

(** [ForeignKeyInfo]; a field the source leaves out of a literal holds
    the empty string. *)
Record ForeignKeyInfo : Type := mkForeignKeyInfo {
  FieldName : string;
  RelatedModel : string;
  RelatedField : string;
  RelationshipID : string
}.

(** [ModelInfo]; the field [Type] of the source is [MType] here. *)
Record ModelInfo : Type := mkModelInfo {
  MType : GoType;
  Fields : list FieldInfo;
  ForeignKeys : list ForeignKeyInfo;
  ResourceName : string;
  PluralName : string
}.

(** The handler closures the generator hands to the router, by the method
    that builds them and what they capture. *)
Inductive HandlerFunc : Type :=
| listHandler (modelInfo : ModelInfo)
| getHandler (modelInfo : ModelInfo)
| createHandler (modelInfo : ModelInfo)
| updateHandler (modelInfo : ModelInfo)
| deleteHandler (modelInfo : ModelInfo)
| relatedHandler (modelInfo : ModelInfo) (fk : ForeignKeyInfo).

(** One call of [Router.GET], [POST], [PUT] or [DELETE]. *)
Record Binding : Type := mkBinding {
  Method : string;
  Path : string;
  Handler : HandlerFunc
}.

(** [APIGenerator]. [Router] is the list of the bindings the router holds,
    oldest first; the database handle is the oracle a handler is run
    against. *)
Record APIGenerator : Type := mkAPIGenerator {
  Router : list Binding;
  Models : gmap string ModelInfo;
  RegisteredPaths : gmap string bool
}.

Definition New : APIGenerator :=
  {| Router := []; Models := ∅; RegisteredPaths := ∅ |}.

Definition isBasicType (t : GoType) : bool :=
  if String.eqb (TypeString t) "time.Time" then true
  else
    match TypeKind t with
    | KBool | KInt | KInt8 | KInt16 | KInt32 | KInt64
    | KUint | KUint8 | KUint16 | KUint32 | KUint64
    | KFloat32 | KFloat64 | KString => true
    | _ => false
    end.

Definition appendField (mi : ModelInfo) (f : FieldInfo) : ModelInfo :=
  {| MType := MType mi; Fields := Fields mi ++ [f];
     ForeignKeys := ForeignKeys mi;
     ResourceName := ResourceName mi; PluralName := PluralName mi |}.

Definition appendForeignKey (mi : ModelInfo) (fk : ForeignKeyInfo)
  : ModelInfo :=
  {| MType := MType mi; Fields := Fields mi;
     ForeignKeys := ForeignKeys mi ++ [fk];
     ResourceName := ResourceName mi; PluralName := PluralName mi |}.

(** The body of the field loop of [RegisterModel], for one field. *)
Definition processField (modelInfo : ModelInfo) (field : StructField)
  : ModelInfo :=
  let jsonTag := TagGet (sfTag field) "json" in
  if String.eqb jsonTag "" || String.eqb jsonTag "-" then modelInfo
  else
    let jsonName := SplitHead jsonTag "," in
    let omitEmpty := Contains jsonTag "omitempty" in
    let fieldInfo :=
      {| Name := sfName field;
         JSONName := jsonName;
         FType := sfType field;
         IsID := String.eqb (sfName field) "ID"
                 || HasSuffix (sfName field) "ID";
         OmitEmpty := omitEmpty |} in
    let modelInfo := appendField modelInfo fieldInfo in
    let modelInfo :=
      if Kind_eqb (TypeKind (sfType field)) KStruct
         && negb (isBasicType (sfType field))
      then
        appendForeignKey modelInfo
          {| FieldName := sfName field;
             RelatedModel := TypeName (sfType field);
             RelatedField := "ID";
             RelationshipID := "" |}
      else modelInfo in
    if HasSuffix (sfName field) "ID"
       && Kind_eqb (TypeKind (sfType field)) KUint
    then
      appendForeignKey modelInfo
        {| FieldName := sfName field;
           RelatedModel := TrimSuffix (sfName field) "ID";
           RelatedField := "";
           RelationshipID := sfName field |}
    else modelInfo.

(** The metadata [RegisterModel] computes for a struct type. *)
Definition buildModelInfo (modelType : GoType) (resourceName : string)
  : ModelInfo :=
  let resourceName :=
    if String.eqb resourceName "" then toSnakeCase (TypeName modelType)
    else resourceName in
  fold_left processField (TypeFields modelType)
    {| MType := modelType; Fields := []; ForeignKeys := [];
       ResourceName := resourceName;
       PluralName := pluralize resourceName |}.

(** [RegisterModel(model, resourceName)]: [model] is given by its dynamic
    type. The result is the generator afterwards and the error, if any. *)
Definition RegisterModel (g : APIGenerator) (model : GoType)
    (resourceName : string) : APIGenerator * option string :=
  let modelType :=
    if Kind_eqb (TypeKind model) KPtr then PtrElem model else model in
  if negb (Kind_eqb (TypeKind modelType) KStruct) then
    (g, Some ("model must be a struct, got "
              +:+ KindString (TypeKind modelType)))
  else
    let modelInfo := buildModelInfo modelType resourceName in
    ({| Router := Router g;
        Models := <[TypeName modelType := modelInfo]> (Models g);
        RegisteredPaths := RegisteredPaths g |}, None).

(** [AnalyzeModel(model)] of analyzer.go: the same analysis, with the
    resource name always derived, and no registry. *)
Definition AnalyzeModel (model : GoType) : ModelInfo + string :=
  let modelType :=
    if Kind_eqb (TypeKind model) KPtr then PtrElem model else model in
  if negb (Kind_eqb (TypeKind modelType) KStruct) then
    inr ("model must be a struct, got " +:+ KindString (TypeKind modelType))
  else inl (buildModelInfo modelType "").

(** A read of [g.RegisteredPaths[path]]. *)
Definition pathRegistered (paths : gmap string bool) (path : string) : bool :=
  default false (paths !! path).

(** A call on the generator ends by returning or by a panic; either way
    the generator is left in some state, which a caller that recovers goes
    on with. *)
Inductive Call : Type :=
| Returns (g : APIGenerator)
| Panics (g : APIGenerator).

(** The generator as a call left it. *)
Definition after (c : Call) : APIGenerator :=
  match c with
  | Returns g => g
  | Panics g => g
  end.

Definition panics (c : Call) : bool :=
  match c with
  | Returns _ => false
  | Panics _ => true
  end.

(** The statements after a call run when it returned; a panic unwinds
    past them. *)
Definition next (c : Call) (rest : APIGenerator -> Call) : Call :=
  match c with
  | Returns g => rest g
  | Panics g => Panics g
  end.

(** A loop over [l] whose body may panic. *)
Fixpoint each {A : Type} (body : APIGenerator -> A -> Call) (l : list A)
    (g : APIGenerator) : Call :=
  match l with
  | [] => Returns g
  | x :: rest => next (body g x) (each body rest)
  end.

(** The router holds a binding of [method] on [path]. *)
Definition routeBound (router : list Binding) (method path : string) : bool :=
  existsb
    (fun b => String.eqb (Method b) method && String.eqb (Path b) path)
    router.

(** [g.Router.GET(path, h)] and the like. The engine keeps one tree of
    paths per method and panics when handlers are already registered for
    the path; otherwise it holds the binding from then on. (Resource and
    model names are taken free of '/', ':' and '*', the segment separator
    and the marks of a wildcard segment: the generated patterns then differ
    in static text or are equal, and the engine has no other conflict to
    refuse.) *)
Definition bind (g : APIGenerator) (method path : string) (h : HandlerFunc)
  : Call :=
  if routeBound (Router g) method path then Panics g
  else
    Returns {| Router := Router g ++ [mkBinding method path h];
               Models := Models g;
               RegisteredPaths := RegisteredPaths g |}.

Definition markPath (g : APIGenerator) (path : string) : APIGenerator :=
  {| Router := Router g;
     Models := Models g;
     RegisteredPaths := <[path := true]> (RegisteredPaths g) |}.

Definition basePathOf (modelInfo : ModelInfo) : string :=
  "/api/" +:+ PluralName modelInfo.

Definition relatedPathOf (modelInfo : ModelInfo) (fk : ForeignKeyInfo)
  : string :=
  basePathOf modelInfo +:+ "/:id/" +:+ toSnakeCase (RelatedModel fk).

(** The body of the foreign-key loop of [generateModelAPI]. *)
Definition relationStep (modelInfo : ModelInfo) (g : APIGenerator)
    (fk : ForeignKeyInfo) : Call :=
  if negb (String.eqb (RelatedModel fk) "") then
    let relatedPath := relatedPathOf modelInfo fk in
    if negb (pathRegistered (RegisteredPaths g) relatedPath) then
      next (bind g "GET" relatedPath (relatedHandler modelInfo fk))
           (fun g => Returns (markPath g relatedPath))
    else Returns g
  else Returns g.

(** The five bindings [generateModelAPI] asks for first. *)
Definition bindCRUD (g : APIGenerator) (modelInfo : ModelInfo) : Call :=
  let basePath := basePathOf modelInfo in
  next (bind g "GET" basePath (listHandler modelInfo)) (fun g =>
  next (bind g "GET" (basePath +:+ "/:id") (getHandler modelInfo)) (fun g =>
  next (bind g "POST" basePath (createHandler modelInfo)) (fun g =>
  next (bind g "PUT" (basePath +:+ "/:id") (updateHandler modelInfo))
       (fun g =>
  bind g "DELETE" (basePath +:+ "/:id") (deleteHandler modelInfo))))).

Definition generateModelAPI (g : APIGenerator) (modelInfo : ModelInfo)
  : Call :=
  next (bindCRUD g modelInfo)
       (each (relationStep modelInfo) (ForeignKeys modelInfo)).

(** [GenerateAPI] ranges over the map [g.Models], in an order Go leaves
    open; [order] is the order of one run. *)
Definition GenerateAPIIn (g : APIGenerator) (order : list ModelInfo) : Call :=
  each generateModelAPI order g.

(** The runs [GenerateAPI] may take: one per order of the registry. *)
Definition GenerateAPI (g : APIGenerator) (c : Call) : Prop :=
  exists order,
    Permutation order (map snd (map_to_list (Models g)))
    /\ c = GenerateAPIIn g order.

End Apigen.

(** ** Request handlers (handlers.go) *)

Module Handlers.
Import GoStrings Naming Reflect Apigen.

(** An error of the database or of the body decoder. *)
Inductive Err : Type :=
| ErrRecordNotFound
| ErrOther (msg : string).

(** [err.Error()]. *)
Definition ErrorText (e : Err) : string :=
  match e with
  | ErrRecordNotFound => "record not found"
  | ErrOther msg => msg
  end.

Definition isRecordNotFound (e : Err) : bool :=
  match e with ErrRecordNotFound => true | ErrOther _ => false end.

(** The argument of a [Where] clause. *)
Inductive Arg : Type :=
| ArgString (s : string)
| ArgUint (n : N).

(** The calls a handler makes on its collaborators; [ty] is the name of
    the model type the instance or slice was made from. *)
Inductive Op : Type :=
| DBFind (ty : string)
| DBFirst (ty : string) (id : string)
| DBWhereFirst (ty : string) (query : string) (arg : string)
| DBWhereFind (ty : string) (query : string) (arg : Arg)
| ShouldBindJSON (ty : string)
| DBCreate (ty : string)
| DBSave (ty : string)
| DBDelete (ty : string).

(** What the collaborators answer: [None] is success. *)
Definition Oracle : Type := Op -> option Err.

(** What [c.JSON] or [c.Status] was given. *)
Inductive Body : Type :=
| ErrorBody (message : string)
| InstanceBody (ty : string)
| ResultsBody (ty : string)
| NoBody.

Inductive Outcome : Type :=
| Respond (status : nat) (body : Body)
| Panic.

Definition StatusOK : nat := 200.
Definition StatusCreated : nat := 201.
Definition StatusNoContent : nat := 204.
Definition StatusBadRequest : nat := 400.
Definition StatusNotFound : nat := 404.
Definition StatusInternalServerError : nat := 500.

(** A handler body: run against an oracle it gives the calls it made, in
    order, and either the outcome it returned with or a value to go on. *)
Definition Run (A : Type) : Type := Oracle -> list Op * (Outcome + A).

Definition ret {A} (a : A) : Run A := fun _ => ([], inr a).

Definition finish {A} (o : Outcome) : Run A := fun _ => ([], inl o).

Definition call (op : Op) : Run (option Err) :=
  fun oracle => ([op], inr (oracle op)).

Definition andThen {A B} (m : Run A) (k : A -> Run B) : Run B :=
  fun oracle =>
    match m oracle with
    | (ops, inl o) => (ops, inl o)
    | (ops, inr a) =>
        let (ops', r) := k a oracle in (ops ++ ops', r)
    end.

#[global] Instance Run_ret : MRet Run := @ret.
#[global] Instance Run_bind : MBind Run := fun A B k m => andThen m k.

Definition JSON {A} (status : nat) (body : Body) : Run A :=
  finish (Respond status body).

(** A call whose error, if any, ends the handler with [onError]. *)
Definition check (op : Op) (onError : Err -> Outcome) : Run unit :=
  err ← call op;
  match err with
  | Some e => finish (onError e)
  | None => ret tt
  end.

Definition internalError (e : Err) : Outcome :=
  Respond StatusInternalServerError (ErrorBody (ErrorText e)).

Definition badRequest (e : Err) : Outcome :=
  Respond StatusBadRequest (ErrorBody (ErrorText e)).

Definition notFoundOr (message : string) (e : Err) : Outcome :=
  if isRecordNotFound e
  then Respond StatusNotFound (ErrorBody message)
  else internalError e.

(** [c.Param("id")], with the guard every item handler starts with. *)
Definition requireID (id : string) : Run unit :=
  if String.eqb id ""
  then JSON StatusBadRequest (ErrorBody "ID is required")
  else ret tt.

(** The lookup shared by the get, update and delete handlers:
    [FieldByName("ID")] on the model type (a model without such a field
    makes [idField.Type.Kind()] a nil dereference), then the query by the
    kind of that field. *)
Definition findExisting (modelInfo : ModelInfo) (id : string) : Run unit :=
  let ty := TypeName (MType modelInfo) in
  match FieldByName (MType modelInfo) "ID" with
  | None => finish Panic
  | Some idField =>
      if Kind_eqb (TypeKind (sfType idField)) KString
      then check (DBWhereFirst ty "id = ?" id) (notFoundOr "Record not found")
      else check (DBFirst ty id) (notFoundOr "Record not found")
  end.

Definition runList (modelInfo : ModelInfo) : Run Outcome :=
  let ty := TypeName (MType modelInfo) in
  check (DBFind ty) internalError ;;
  JSON StatusOK (ResultsBody ty).

Definition runGet (modelInfo : ModelInfo) (id : string) : Run Outcome :=
  let ty := TypeName (MType modelInfo) in
  requireID id ;;
  findExisting modelInfo id ;;
  JSON StatusOK (InstanceBody ty).

Definition runCreate (modelInfo : ModelInfo) : Run Outcome :=
  let ty := TypeName (MType modelInfo) in
  check (ShouldBindJSON ty) badRequest ;;
  check (DBCreate ty) internalError ;;
  JSON StatusCreated (InstanceBody ty).

Definition runUpdate (modelInfo : ModelInfo) (id : string) : Run Outcome :=
  let ty := TypeName (MType modelInfo) in
  requireID id ;;
  findExisting modelInfo id ;;
  check (ShouldBindJSON ty) badRequest ;;
  check (DBSave ty) internalError ;;
  JSON StatusOK (InstanceBody ty).

Definition runDelete (modelInfo : ModelInfo) (id : string) : Run Outcome :=
  let ty := TypeName (MType modelInfo) in
  requireID id ;;
  findExisting modelInfo id ;;
  check (DBDelete ty) internalError ;;
  JSON StatusNoContent NoBody.

Definition isDigit (c : ascii) : bool :=
  let n := nat_of_ascii c in (48 <=? n)%nat && (n <=? 57)%nat.

Fixpoint parseDigits (acc : N) (s : string) : option N :=
  match s with
  | EmptyString => Some acc
  | String c rest =>
      if isDigit c
      then parseDigits (acc * 10 + N.of_nat (nat_of_ascii c - 48)) rest
      else None
  end.

(** [strconv.ParseUint(s, 10, 64)]: [None] is a syntax or range error. *)
Definition ParseUint (s : string) : option N :=
  if String.eqb s "" then None
  else
    match parseDigits 0 s with
    | Some n => if (n <? 2 ^ 64)%N then Some n else None
    | None => None
    end.

(** The handler of a relationship path; [models] is [g.Models] when the
    request is served. *)
Definition runRelated (models : gmap string ModelInfo)
    (modelInfo : ModelInfo) (fk : ForeignKeyInfo) (id : string)
  : Run Outcome :=
  requireID id ;;
  check (DBFirst (TypeName (MType modelInfo)) id)
        (notFoundOr "Parent record not found") ;;
  match models !! RelatedModel fk with
  | None =>
      JSON StatusInternalServerError
           (ErrorBody ("Related model " +:+ RelatedModel fk
                       +:+ " not registered"))
  | Some relatedModelInfo =>
      let ty := TypeName (MType relatedModelInfo) in
      (if negb (String.eqb (RelationshipID fk) "") then
         match ParseUint id with
         | None => JSON StatusBadRequest (ErrorBody "Invalid ID format")
         | Some idVal =>
             check (DBWhereFind ty (RelationshipID fk) (ArgUint idVal))
                   internalError
         end
       else
         check (DBWhereFind ty (ResourceName modelInfo +:+ "ID = ?")
                            (ArgString id))
               internalError) ;;
      JSON StatusOK (ResultsBody ty)
  end.

(** One request: the path parameter [id]; the body is read through
    [ShouldBindJSON]. *)
Definition serve (g : APIGenerator) (h : HandlerFunc) (id : string)
    (oracle : Oracle) : list Op * Outcome :=
  let run :=
    match h with
    | listHandler mi => runList mi
    | getHandler mi => runGet mi id
    | createHandler mi => runCreate mi
    | updateHandler mi => runUpdate mi id
    | deleteHandler mi => runDelete mi id
    | relatedHandler mi fk => runRelated (Models g) mi fk id
    end in
  match run oracle with
  | (ops, inl o) => (ops, o)
  | (ops, inr o) => (ops, o)
  end.

End Handlers.

(** ** Request structs as source text (analyzer.go) *)

Module Analyzer.
Import GoStrings Naming Reflect Apigen.

Definition getOperationName (isCreate : bool) : string :=
  if isCreate then "Create" else "Update".

Fixpoint getTypeName (t : GoType) : string :=
  match t with
  | TBasic k =>
      match k with
      | KBool => "bool"
      | KInt => "int" | KInt8 => "int8" | KInt16 => "int16"
      | KInt32 => "int32" | KInt64 => "int64"
      | KUint => "uint" | KUint8 => "uint8" | KUint16 => "uint16"
      | KUint32 => "uint32" | KUint64 => "uint64"
      | KFloat32 => "float32" | KFloat64 => "float64"
      | KString => "string"
      | _ => "any"
      end
  | TStruct _ _ _ =>
      if String.eqb (TypeString t) "time.Time" then "time.Time"
      else TypeName t
  | TSlice e | TArray _ e => "[]" +:+ getTypeName e
  | TMap k e => "map[" +:+ getTypeName k +:+ "]" +:+ getTypeName e
  | TPtr e => "*" +:+ getTypeName e
  end.

(** The line [GenerateRequestStruct] writes for one field. *)
Definition fieldLine (field : FieldInfo) : string :=
  String "009" (Name field) +:+ " " +:+ getTypeName (FType field)
  +:+ " `json:" +:+ String "034" (JSONName field) +:+ String "034" "`"
  +:+ String "010" "".

(** One turn of the field loop of [GenerateRequestStruct]: [builder] is
    the text written so far. *)
Definition writeRequestField (isCreate : bool) (builder : string)
    (field : FieldInfo) : string :=
  if isCreate && IsID field && String.eqb (Name field) "ID" then builder
  else builder +:+ fieldLine field.

Definition GenerateRequestStruct (modelInfo : ModelInfo) (isCreate : bool)
  : string :=
  let structName :=
    TypeName (MType modelInfo) +:+ getOperationName isCreate +:+ "Request" in
  let builder := "type " +:+ structName +:+ " struct {" +:+ String "010" "" in
  let builder :=
    fold_left (writeRequestField isCreate) (Fields modelInfo) builder in
  builder +:+ "}" +:+ String "010" "".

Definition GenerateResponseStruct (modelInfo : ModelInfo) : string :=
  let structName := TypeName (MType modelInfo) +:+ "Response" in
  let builder := "type " +:+ structName +:+ " struct {" +:+ String "010" "" in
  let builder :=
    fold_left (fun b field => b +:+ fieldLine field) (Fields modelInfo)
              builder in
  builder +:+ "}" +:+ String "010" "".

Definition GenerateListResponseStruct (modelInfo : ModelInfo) : string :=
  let structName := TypeName (MType modelInfo) +:+ "ListResponse" in
  let responseTypeName := TypeName (MType modelInfo) +:+ "Response" in
  let builder := "type " +:+ structName +:+ " struct {" +:+ String "010" "" in
  let builder :=
    builder +:+ (String "009" "Items []" +:+ responseTypeName
                 +:+ " `json:" +:+ String "034" "items" +:+ String "034" "`"
                 +:+ String "010" "") in
  let builder :=
    builder +:+ (String "009" "Total int64 `json:" +:+ String "034" "total"
                 +:+ String "034" "`" +:+ String "010" "") in
  builder +:+ "}" +:+ String "010" "".

End Analyzer.

(** ** Schema documents (swagger.go) *)

Module Swagger.
Import GoStrings Naming Reflect Apigen.

(** The documents [getSwaggerType] builds, one constructor per shape:
    [{"type": t}] with an optional ["format"], [{"$ref": r}], an object
    with ["properties"], an array with ["items"], and an object with
    ["additionalProperties"]. *)
#[warnings="-register-all"]
Inductive Schema : Type :=
| SType (type : string) (format : option string)
| SRef (ref : string)
| SObject (properties : gmap string Schema)
| SArray (items : Schema)
| SAdditional (additionalProperties : Schema).

(** The document of a request or response body: ["type": "object"], the
    ["properties"], and ["required"], a key that is set only when the list
    is not empty. *)
Record BodyDoc : Type := mkBodyDoc {
  properties : gmap string Schema;
  required : option (list string)
}.

Definition getIntegerFormat (k : Kind) : string :=
  match k with
  | KInt64 | KUint64 => "int64"
  | _ => "int32"
  end.

Definition getFloatFormat (k : Kind) : string :=
  match k with
  | KFloat64 => "double"
  | _ => "float"
  end.

(** The documents of [BuildPathsForAllModels], by the keys it writes. A
    parameter: ["name"], ["in"], ["required"], and ["description"], ["type"]
    and ["schema"] where given. *)
Record ParameterDoc : Type := mkParameterDoc {
  paramName : string;
  paramIn : string;
  paramDescription : option string;
  paramRequired : bool;
  paramType : option string;
  paramSchema : option BodyDoc
}.

(** The ["schema"] of a response: an array of references to a definition,
    or a body document. *)
Inductive ResponseSchema : Type :=
| ArrayOfRef (ref : string)
| BodySchema (body : BodyDoc).

(** A response: ["description"] and, where given, ["schema"]. *)
Record ResponseDoc : Type := mkResponseDoc {
  respDescription : string;
  respSchema : option ResponseSchema
}.

(** An operation: ["summary"], ["parameters"] (no key when the list is
    empty: the source writes no empty list) and ["responses"] by status. *)
Record OperationDoc : Type := mkOperationDoc {
  opSummary : string;
  opParameters : list ParameterDoc;
  opResponses : gmap string ResponseDoc
}.

(** The parameter [{"name": "id", "in": "path", "required": true,
    "type": "string"}]. *)
Definition idParameter : ParameterDoc :=
  {| paramName := "id"; paramIn := "path"; paramDescription := None;
     paramRequired := true; paramType := Some "string";
     paramSchema := None |}.

Definition bodyParameter (name description : string) (schema : BodyDoc)
  : ParameterDoc :=
  {| paramName := name; paramIn := "body";
     paramDescription := Some description;
     paramRequired := true; paramType := None;
     paramSchema := Some schema |}.

Definition describe (description : string) : ResponseDoc :=
  {| respDescription := description; respSchema := None |}.

Section Generator.
(** [g.Models] of the [SwaggerGenerator]. *)
Variable Models : gmap string ModelInfo.

Fixpoint getSwaggerType (t : GoType) : Schema :=
  match t with
  | TBasic k =>
      match k with
      | KBool => SType "boolean" None
      | KInt | KInt8 | KInt16 | KInt32 | KInt64
      | KUint | KUint8 | KUint16 | KUint32 | KUint64 =>
          SType "integer" (Some (getIntegerFormat k))
      | KFloat32 | KFloat64 => SType "number" (Some (getFloatFormat k))
      | KString => SType "string" None
      | _ => SType "string" None
      end
  | TStruct pkg name fields =>
      match Models !! name with
      | Some modelInfo =>
          SRef ("#/definitions/" +:+ TypeName (MType modelInfo))
      | None =>
          if String.eqb (TypeString (TStruct pkg name fields)) "time.Time"
          then SType "string" (Some "date-time")
          else
            SObject
              (fold_left
                 (fun properties field =>
                    let jsonTag := TagGet (sfTag field) "json" in
                    if String.eqb jsonTag "" || String.eqb jsonTag "-"
                    then properties
                    else
                      <[SplitHead jsonTag "," :=
                          getSwaggerType (sfType field)]> properties)
                 fields ∅)
      end
  | TSlice e | TArray _ e => SArray (getSwaggerType e)
  | TMap _ e => SAdditional (getSwaggerType e)
  | TPtr e => getSwaggerType e
  end.

(** The loop state of the body generators: the properties map and the
    required list. *)
Definition addField (acc : gmap string Schema * list string)
    (field : FieldInfo) : gmap string Schema * list string :=
  let (props, req) := acc in
  (<[JSONName field := getSwaggerType (FType field)]> props,
   if negb (OmitEmpty field) then req ++ [JSONName field] else req).

Definition finishBody (acc : gmap string Schema * list string) : BodyDoc :=
  let (props, req) := acc in
  {| properties := props;
     required := if (0 <? length req)%nat then Some req else None |}.

Definition generateModelDefinition (modelInfo : ModelInfo) : BodyDoc :=
  finishBody
    (fold_left
       (fun acc field =>
          if String.eqb (JSONName field) "-" then acc
          else addField acc field)
       (Fields modelInfo) (∅, [])).

Definition GenerateRequestBody (modelInfo : ModelInfo) (isCreate : bool)
  : BodyDoc :=
  finishBody
    (fold_left
       (fun acc field =>
          if String.eqb (JSONName field) "-" || (isCreate && IsID field)
          then acc
          else addField acc field)
       (Fields modelInfo) (∅, [])).

Definition GenerateResponseBody (modelInfo : ModelInfo) : BodyDoc :=
  {| properties :=
       fold_left
         (fun props field =>
            if String.eqb (JSONName field) "-" then props
            else <[JSONName field := getSwaggerType (FType field)]> props)
         (Fields modelInfo) ∅;
     required := None |}.

(** [GenerateModelDefinitions]: one definition per key of the registry. *)
Definition GenerateModelDefinitions : gmap string BodyDoc :=
  generateModelDefinition <$> Models.

(** The document [BuildPathsForAllModels] writes at the collection path. *)
Definition collectionItem (modelInfo : ModelInfo)
  : gmap string OperationDoc :=
  let plural := PluralName modelInfo in
  let modelName := TypeName (MType modelInfo) in
  <["post" :=
      {| opSummary := "Create a new " +:+ ResourceName modelInfo;
         opParameters :=
           [bodyParameter (ResourceName modelInfo) "Create request"
                          (GenerateRequestBody modelInfo true)];
         opResponses :=
           {[ "201" :=
                {| respDescription := "Created";
                   respSchema :=
                     Some (BodySchema (GenerateResponseBody modelInfo)) |} ]}
      |}]>
  (<["get" :=
      {| opSummary := "List all " +:+ plural;
         opParameters := [];
         opResponses :=
           {[ "200" :=
                {| respDescription := "List response";
                   respSchema :=
                     Some (ArrayOfRef ("#/definitions/" +:+ modelName)) |} ]}
      |}]> ∅).

(** The document it writes at the item path. *)
Definition instanceItem (modelInfo : ModelInfo) : gmap string OperationDoc :=
  let success (description : string) : ResponseDoc :=
    {| respDescription := description;
       respSchema := Some (BodySchema (GenerateResponseBody modelInfo)) |} in
  <["delete" :=
      {| opSummary := "Delete a " +:+ ResourceName modelInfo;
         opParameters := [idParameter];
         opResponses :=
           <["404" := describe "Not found"]>
             {[ "204" := describe "Deleted" ]} |}]>
  (<["put" :=
      {| opSummary := "Update a " +:+ ResourceName modelInfo;
         opParameters :=
           [idParameter;
            bodyParameter (ResourceName modelInfo) "Update request"
                          (GenerateRequestBody modelInfo false)];
         opResponses :=
           <["404" := describe "Not found"]>
             {[ "200" := success "Updated" ]} |}]>
  (<["get" :=
      {| opSummary := "Get a " +:+ ResourceName modelInfo;
         opParameters := [idParameter];
         opResponses :=
           <["404" := describe "Not found"]>
             {[ "200" := success "Success" ]} |}]> ∅)).

(** The document it writes at the path of a foreign key. *)
Definition relatedItem (modelInfo : ModelInfo) (fk : ForeignKeyInfo)
  : gmap string OperationDoc :=
  {[ "get" :=
       {| opSummary := "Get related " +:+ RelatedModel fk +:+ " for "
                       +:+ ResourceName modelInfo;
          opParameters := [idParameter];
          opResponses := {[ "200" := describe "List response" ]} |} ]}.

Definition relatedDocPath (modelInfo : ModelInfo) (fk : ForeignKeyInfo)
  : string :=
  "/api/" +:+ PluralName modelInfo +:+ "/{id}/"
  +:+ toSnakeCase (RelatedModel fk).

(** One turn of the model loop of [BuildPathsForAllModels]. *)
Definition buildModelPaths
    (paths : gmap string (gmap string OperationDoc)) (modelInfo : ModelInfo)
  : gmap string (gmap string OperationDoc) :=
  let plural := PluralName modelInfo in
  let paths := <["/api/" +:+ plural := collectionItem modelInfo]> paths in
  let paths :=
    <["/api/" +:+ plural +:+ "/{id}" := instanceItem modelInfo]> paths in
  fold_left
    (fun paths fk =>
       if negb (String.eqb (RelatedModel fk) "")
       then <[relatedDocPath modelInfo fk := relatedItem modelInfo fk]> paths
       else paths)
    (ForeignKeys modelInfo) paths.

(** [BuildPathsForAllModels] ranges over the map [g.Models]; [order] is
    the order of one run, and the result is the new [g.paths]. *)
Definition BuildPathsForAllModelsIn (order : list ModelInfo)
  : gmap string (gmap string OperationDoc) :=
  fold_left buildModelPaths order ∅.

(** The paths [BuildPathsForAllModels] may leave in [g.paths]. *)
Definition BuildPathsForAllModels
    (paths : gmap string (gmap string OperationDoc)) : Prop :=
  exists order,
    Permutation order (map snd (map_to_list Models))
    /\ paths = BuildPathsForAllModelsIn order.

End Generator.

End Swagger.

(** ** Vocabulary of the properties *)

Module Vocabulary.
Import GoStrings Naming Reflect Apigen Handlers Swagger.

(** Every character of [s] passes [p]. *)
Fixpoint allChars (p : ascii -> bool) (s : string) : bool :=
  match s with
  | EmptyString => true
  | String c rest => p c && allChars p rest
  end.

Definition notUpper (c : ascii) : bool := negb (IsUpper c).
Definition notUnderscore (c : ascii) : bool := negb (Ascii.eqb c "_").
Definition notDigit (c : ascii) : bool := negb (isDigit c).

(** [w] ends in [suffix]. *)
Definition endsIn (w suffix : string) : Prop :=
  exists stem, w = stem +:+ suffix.

(** The first character lower-cased, the rest as it is. *)
Definition lowerFirst (s : string) : string :=
  match s with
  | EmptyString => EmptyString
  | String r rest => String (ToLower r) rest
  end.

(** *** The models of the specification's example, with their json names *)

Definition field (name : string) (type : GoType) (json : string)
  : StructField :=
  mkStructField name type [("json", json)] false.

(** [User{ID uint, Name string, Email string `binding:"required"`}]. *)
Definition User : GoType :=
  TStruct "main" "User"
    [field "ID" (TBasic KUint) "id";
     field "Name" (TBasic KString) "name";
     mkStructField "Email" (TBasic KString)
                   [("json", "email"); ("binding", "required")] false].

(** [Post{ID uint, UserID uint, Title string, User User}]. *)
Definition Post : GoType :=
  TStruct "main" "Post"
    [field "ID" (TBasic KUint) "id";
     field "UserID" (TBasic KUint) "user_id";
     field "Title" (TBasic KString) "title";
     field "User" User "user"].

Definition userInfo : ModelInfo := buildModelInfo User "user".
Definition postInfo : ModelInfo := buildModelInfo Post "post".

(** The generator after [RegisterModel(User{}, "user")] and
    [RegisterModel(Post{}, "post")]. *)
Definition registered : APIGenerator :=
  fst (RegisterModel (fst (RegisterModel New User "user")) Post "post").

(** The foreign keys of [Post]: from the scalar [UserID] (Rule B) and from
    the nested [User] (Rule A). *)
Definition fkUserID : ForeignKeyInfo :=
  {| FieldName := "UserID"; RelatedModel := "User";
     RelatedField := ""; RelationshipID := "UserID" |}.

Definition fkUser : ForeignKeyInfo :=
  {| FieldName := "User"; RelatedModel := "User";
     RelatedField := "ID"; RelationshipID := "" |}.

(** An oracle under which every call succeeds. *)
Definition allSucceed : Oracle := fun _ => None.

(** An oracle of a database without records, every other call succeeding. *)
Definition noRecords : Oracle :=
  fun op =>
    match op with
    | DBFirst _ _ | DBWhereFirst _ _ _ => Some ErrRecordNotFound
    | _ => None
    end.

(** *** Routes *)

(** The five bindings of a model, in the order they are asked for. *)
Definition crudBindings (modelInfo : ModelInfo) : list Binding :=
  let basePath := basePathOf modelInfo in
  [mkBinding "GET" basePath (listHandler modelInfo);
   mkBinding "GET" (basePath +:+ "/:id") (getHandler modelInfo);
   mkBinding "POST" basePath (createHandler modelInfo);
   mkBinding "PUT" (basePath +:+ "/:id") (updateHandler modelInfo);
   mkBinding "DELETE" (basePath +:+ "/:id") (deleteHandler modelInfo)].

(** A binding of a relationship handler. *)
Definition isRelated (b : Binding) : bool :=
  match Handler b with
  | relatedHandler _ _ => true
  | _ => false
  end.

(** The relationship bindings of a router. *)
Definition relationBindings (router : list Binding) : list Binding :=
  List.filter isRelated router.

(** A foreign key that names a related model. *)
Definition namesModel (fk : ForeignKeyInfo) : bool :=
  negb (String.eqb (RelatedModel fk) "").

(** The bindings the foreign-key loop adds for [fks] when [paths] is the
    set of registered paths it starts from and the router refuses none. *)
Fixpoint newRelations (modelInfo : ModelInfo) (paths : gmap string bool)
    (fks : list ForeignKeyInfo) : list Binding :=
  match fks with
  | [] => []
  | fk :: rest =>
      let path := relatedPathOf modelInfo fk in
      if namesModel fk && negb (pathRegistered paths path)
      then mkBinding "GET" path (relatedHandler modelInfo fk)
           :: newRelations modelInfo (<[path := true]> paths) rest
      else newRelations modelInfo paths rest
  end.

(** The registered paths after that loop. *)
Fixpoint pathsAfter (modelInfo : ModelInfo) (paths : gmap string bool)
    (fks : list ForeignKeyInfo) : gmap string bool :=
  match fks with
  | [] => paths
  | fk :: rest =>
      let path := relatedPathOf modelInfo fk in
      if namesModel fk && negb (pathRegistered paths path)
      then pathsAfter modelInfo (<[path := true]> paths) rest
      else pathsAfter modelInfo paths rest
  end.

(** *** Requests *)

(** A lookup of a record by its identifier. *)
Definition isLookup (op : Op) : bool :=
  match op with
  | DBFirst _ _ | DBWhereFirst _ _ _ => true
  | _ => false
  end.

(** A write of a record. *)
Definition isWrite (op : Op) : bool :=
  match op with
  | DBCreate _ | DBSave _ | DBDelete _ => true
  | _ => false
  end.

Definition isBind (op : Op) : bool :=
  match op with
  | ShouldBindJSON _ => true
  | _ => false
  end.

(** *** Analysis *)

Definition emptyModel : ModelInfo :=
  {| MType := TBasic KInvalid; Fields := []; ForeignKeys := [];
     ResourceName := ""; PluralName := "" |}.

(** The field metadata one struct field contributes: none or one. *)
Definition analyzedField (f : StructField) : list FieldInfo :=
  Fields (processField emptyModel f).

(** The foreign keys one struct field contributes: none, one or two. *)
Definition analyzedKeys (f : StructField) : list ForeignKeyInfo :=
  ForeignKeys (processField emptyModel f).

(** A struct field the analysis keeps, and the external name it is kept
    under. *)
Definition serializedAs (f : StructField) (jsonName : string) : Prop :=
  TagGet (sfTag f) "json" <> ""
  /\ TagGet (sfTag f) "json" <> "-"
  /\ SplitHead (TagGet (sfTag f) "json") "," = jsonName.

(** *** Schemas and request structs *)

(** The ["required"] list of a body document, empty when the key is not
    set. *)
Definition requiredNames (d : BodyDoc) : list string :=
  default [] (required d).

(** The fields the create-request struct keeps: all but a field that is
    flagged as identifier and is called [ID]. *)
Definition keptInCreateStruct (f : FieldInfo) : bool :=
  negb (IsID f && String.eqb (Name f) "ID").

(** The lines of a list of fields, one after the other. *)
Definition linesOf (fs : list FieldInfo) : string :=
  fold_right (fun f text => Analyzer.fieldLine f +:+ text) "" fs.

(** The loop of a body generator, for any test of the fields to skip. *)
Definition bodyLoop (models : gmap string ModelInfo)
    (skip : FieldInfo -> bool) (fs : list FieldInfo)
    (acc : gmap string Schema * list string)
  : gmap string Schema * list string :=
  fold_left
    (fun acc field => if skip field then acc else addField models acc field)
    fs acc.

(** A model whose [ID] is serialized under the name "-" (the tag "-,"),
    and a model whose [ID] has no json tag. *)
Definition Token : GoType :=
  TStruct "main" "Token"
    [mkStructField "ID" (TBasic KUint) [("json", "-,")] false;
     field "Name" (TBasic KString) "name"].

Definition Plain : GoType :=
  TStruct "main" "Plain"
    [mkStructField "ID" (TBasic KUint) [] false;
     field "Name" (TBasic KString) "name"].

(** *** Counting and further shapes *)

(** The number of characters of [s] that pass [p]. *)
Fixpoint countChars (p : ascii -> bool) (s : string) : nat :=
  match s with
  | EmptyString => 0
  | String c rest => (if p c then 1 else 0) + countChars p rest
  end.

(** All but the first character. *)
Definition tailOf (s : string) : string :=
  match s with
  | EmptyString => EmptyString
  | String _ rest => rest
  end.

Definition notComma (c : ascii) : bool := negb (Ascii.eqb c ",").

(** A struct field the analysis keeps: its json tag is neither empty nor
    "-". *)
Definition hasJSONName (f : StructField) : bool :=
  negb (String.eqb (TagGet (sfTag f) "json") ""
        || String.eqb (TagGet (sfTag f) "json") "-").

(** The json tag up to its first comma. *)
Definition jsonNameOf (f : StructField) : string :=
  SplitHead (TagGet (sfTag f) "json") ",".

(** The model type [RegisterModel] analyses: the pointee of a pointer. *)
Definition modelTypeOf (model : GoType) : GoType :=
  if Kind_eqb (TypeKind model) KPtr then PtrElem model else model.

(** The generators a program can build: from [New], by registering models
    and by generating the routes of registered models, going on after a
    panic or not. *)
Inductive Reachable : APIGenerator -> Prop :=
| reach_New : Reachable New
| reach_RegisterModel (g : APIGenerator) (model : GoType)
    (resourceName : string) :
    Reachable g -> Reachable (fst (RegisterModel g model resourceName))
| reach_generateModelAPI (g : APIGenerator) (key : string)
    (modelInfo : ModelInfo) :
    Reachable g -> Models g !! key = Some modelInfo ->
    Reachable (after (generateModelAPI g modelInfo)).

(** The relationship paths of the router are pairwise distinct, and each is
    registered. *)
Definition routesConsistent (g : APIGenerator) : Prop :=
  List.NoDup (map Path (relationBindings (Router g)))
  /\ forall b, In b (relationBindings (Router g)) ->
               pathRegistered (RegisteredPaths g) (Path b) = true.

(** The paths that are registered are those of the relationship bindings
    of the router. *)
Definition registeredAreBound (g : APIGenerator) : Prop :=
  forall p, pathRegistered (RegisteredPaths g) p = true ->
            exists b, In b (relationBindings (Router g)) /\ Path b = p.

(** *** Handlers *)

(** The handlers of an item path, which read [c.Param("id")]. *)
Definition readsID (h : HandlerFunc) : bool :=
  match h with
  | listHandler _ | createHandler _ => false
  | _ => true
  end.

(** The handlers of the GET routes. *)
Definition isReadHandler (h : HandlerFunc) : bool :=
  match h with
  | listHandler _ | getHandler _ | relatedHandler _ _ => true
  | _ => false
  end.

(** The handlers that look a record up by the kind of its [ID] field, and
    the model they are built for. *)
Definition itemModel (h : HandlerFunc) : option ModelInfo :=
  match h with
  | getHandler mi | updateHandler mi | deleteHandler mi => Some mi
  | _ => None
  end.

(** The lookup of a record of a model whose [ID] field is [idField]: by the
    column id for a string key, by primary key otherwise. *)
Definition lookupOf (modelInfo : ModelInfo) (idField : StructField)
    (id : string) : Op :=
  let ty := TypeName (MType modelInfo) in
  if Kind_eqb (TypeKind (sfType idField)) KString
  then DBWhereFirst ty "id = ?" id
  else DBFirst ty id.

(** The calls that follow a successful lookup, and the answer when they
    succeed. *)
Definition afterLookup (h : HandlerFunc) : list Op * Outcome :=
  match h with
  | getHandler mi =>
      ([], Respond StatusOK (InstanceBody (TypeName (MType mi))))
  | updateHandler mi =>
      ([ShouldBindJSON (TypeName (MType mi)); DBSave (TypeName (MType mi))],
       Respond StatusOK (InstanceBody (TypeName (MType mi))))
  | deleteHandler mi =>
      ([DBDelete (TypeName (MType mi))], Respond StatusNoContent NoBody)
  | _ => ([], Panic)
  end.

(** A model without a field [ID]. *)
Definition Tag : GoType :=
  TStruct "main" "Tag" [field "Label" (TBasic KString) "label"].

(** *** Schemas, continued *)

(** The test of the fields a request body skips. *)
Definition skippedInBody (isCreate : bool) (f : FieldInfo) : bool :=
  String.eqb (JSONName f) "-" || (isCreate && IsID f).

(** The fields a request body lists as required. *)
Definition requiredInBody (isCreate : bool) (f : FieldInfo) : bool :=
  negb (skippedInBody isCreate f) && negb (OmitEmpty f).

(** The header of a generated struct. *)
Definition structHeader (structName : string) : string :=
  "type " +:+ structName +:+ " struct {" +:+ String "010" "".

(** *** Paths *)

(** The paths of a model, with [idSegment] for the identifier: the
    collection, the item, and one per foreign key that names a model. *)
Definition pathsWith (idSegment : string) (mi : ModelInfo) : list string :=
  ("/api/" +:+ PluralName mi)
  :: ("/api/" +:+ PluralName mi +:+ "/" +:+ idSegment)
  :: map (fun fk =>
            "/api/" +:+ PluralName mi +:+ "/" +:+ idSegment +:+ "/"
            +:+ toSnakeCase (RelatedModel fk))
         (List.filter namesModel (ForeignKeys mi)).

(** The operations of a path document: those of a collection, of an item
    or of a relationship. *)
Definition operationsShape (item : gmap string OperationDoc) : Prop :=
  dom item = ({[ "get"; "post" ]} : gset string)
  \/ dom item = ({[ "get"; "put"; "delete" ]} : gset string)
  \/ dom item = ({[ "get" ]} : gset string).

(** *** The router *)



(** [User] and [Tag] registered under one resource name. *)
Definition sharedName : APIGenerator :=
  fst (RegisterModel (fst (RegisterModel New User "item")) Tag "item").

(** *** ASCII names *)

(** Every character of [s] is an ASCII character: a byte below 128, which
    is a rune of its own. *)
Definition isASCII (s : string) : bool :=
  allChars (fun c => (nat_of_ascii c <? 128)%nat) s.

(** [g'] continues [g]: the registry is the same, the router holds the
    bindings of [g] and then more, and the registered paths of [g] are
    registered. *)
Definition grows (g g' : APIGenerator) : Prop :=
  Models g' = Models g
  /\ (exists added, Router g' = Router g ++ added)
  /\ forall p, pathRegistered (RegisteredPaths g) p = true ->
               pathRegistered (RegisteredPaths g') p = true.

End Vocabulary.

(** * Properties *)

(** ** Strings *)

Module StringFacts.
Import GoStrings Vocabulary.

Ltac by_cases_on_char r :=
  destruct r as [[] [] [] [] [] [] [] []]; vm_compute; intros;
  try reflexivity; try discriminate.

Lemma IsUpper_ToLower r : IsUpper r = true -> IsUpper (ToLower r) = false.
Proof. by_cases_on_char r. Qed.

Lemma ToUpper_ToLower r : IsUpper r = true -> ToUpper (ToLower r) = r.
Proof. by_cases_on_char r. Qed.

Lemma ToLower_not_underscore r :
  IsUpper r = true -> Ascii.eqb (ToLower r) "_" = false.
Proof. by_cases_on_char r. Qed.

Lemma ToLower_not_upper r : IsUpper r = false -> ToLower r = r.
Proof. unfold ToLower. intros ->. reflexivity. Qed.

Lemma append_nil (b : string) : "" +:+ b = b.
Proof. reflexivity. Qed.

Lemma append_cons (c : ascii) (a b : string) :
  String c a +:+ b = String c (a +:+ b).
Proof. reflexivity. Qed.

Ltac unfold_append := rewrite ?append_nil, ?append_cons.

Lemma length_append (a b : string) :
  String.length (a +:+ b) = String.length a + String.length b.
Proof.
  induction a as [|c a IH]; unfold_append; simpl;
    [reflexivity | now rewrite IH].
Qed.

Lemma append_empty_r (a : string) : a +:+ "" = a.
Proof.
  induction a as [|c a IH]; unfold_append; [reflexivity | now rewrite IH].
Qed.

Lemma append_assoc (a b c : string) : (a +:+ b) +:+ c = a +:+ (b +:+ c).
Proof.
  induction a as [|x a IH]; unfold_append; [reflexivity | now rewrite IH].
Qed.

Lemma substring_all (s : string) : substring 0 (String.length s) s = s.
Proof. induction s as [|c s IH]; simpl; [reflexivity | now rewrite IH]. Qed.

Lemma substring_skip (a b : string) (n : nat) :
  substring (String.length a) n (a +:+ b) = substring 0 n b.
Proof.
  induction a as [|c a IH]; unfold_append; simpl; [reflexivity | exact IH].
Qed.

Lemma substring_take (a b : string) :
  substring 0 (String.length a) (a +:+ b) = a.
Proof.
  induction a as [|c a IH]; unfold_append; simpl.
  - destruct b; reflexivity.
  - now rewrite IH.
Qed.

(** A string is its first [n] characters followed by the rest. *)
Lemma substring_split (s : string) (n : nat) :
  n <= String.length s ->
  s = substring 0 n s +:+ substring n (String.length s - n) s.
Proof.
  revert n. induction s as [|c s IH]; intros [|n] Hn; simpl in *;
    unfold_append.
  - reflexivity.
  - lia.
  - now rewrite substring_all.
  - f_equal. apply IH. lia.
Qed.

Lemma HasSuffix_append (stem suffix : string) :
  HasSuffix (stem +:+ suffix) suffix = true.
Proof.
  unfold HasSuffix. rewrite length_append.
  apply andb_true_intro. split.
  - apply Nat.leb_le. lia.
  - replace (String.length stem + String.length suffix
             - String.length suffix) with (String.length stem) by lia.
    rewrite substring_skip, substring_all. apply String.eqb_refl.
Qed.

Lemma HasSuffix_stem (s suffix : string) :
  HasSuffix s suffix = true ->
  s = substring 0 (String.length s - String.length suffix) s +:+ suffix.
Proof.
  unfold HasSuffix. intros H.
  apply andb_prop in H as [Hlen Heq].
  apply Nat.leb_le in Hlen. apply String.eqb_eq in Heq.
  rewrite (substring_split s (String.length s - String.length suffix))
    at 1 by lia.
  f_equal.
  replace (String.length s - (String.length s - String.length suffix))
    with (String.length suffix) by lia.
  exact Heq.
Qed.

(** [HasSuffix] decides [endsIn]. *)
Lemma HasSuffix_endsIn (s suffix : string) :
  HasSuffix s suffix = true <-> endsIn s suffix.
Proof.
  split.
  - intros H. eexists. apply HasSuffix_stem, H.
  - intros [stem ->]. apply HasSuffix_append.
Qed.

Lemma HasSuffix_not_endsIn (s suffix : string) :
  HasSuffix s suffix = false <-> ~ endsIn s suffix.
Proof.
  rewrite <- HasSuffix_endsIn. destruct (HasSuffix s suffix); split;
    intros; congruence.
Qed.

Lemma TrimSuffix_append (stem suffix : string) :
  TrimSuffix (stem +:+ suffix) suffix = stem.
Proof.
  unfold TrimSuffix. rewrite HasSuffix_append, length_append.
  replace (String.length stem + String.length suffix
           - String.length suffix) with (String.length stem) by lia.
  apply substring_take.
Qed.

End StringFacts.

(** ** Naming engine *)

Module NamingFacts.
Import GoStrings Naming Vocabulary StringFacts.

Lemma snakeLoop_notUpper (i : nat) (s : string) :
  allChars notUpper (snakeLoop i s) = true.
Proof.
  revert i. induction s as [|r s IH]; intros i; simpl; [reflexivity|].
  destruct (IsUpper r) eqn:Hr.
  - destruct (0 <? i)%nat; simpl; unfold notUpper at 1;
      rewrite ?(IsUpper_ToLower r Hr), IH; reflexivity.
  - simpl. unfold notUpper at 1. rewrite Hr, IH. reflexivity.
Qed.

Lemma snakeLoop_fixes_lower (i : nat) (s : string) :
  allChars notUpper s = true -> snakeLoop i s = s.
Proof.
  revert i. induction s as [|r s IH]; intros i H; simpl in *; [reflexivity|].
  apply andb_prop in H as [Hr Hs]. unfold notUpper in Hr.
  apply negb_true_iff in Hr. rewrite Hr. f_equal. apply IH, Hs.
Qed.

Lemma toSnakeCase_idempotent (x : string) :
  toSnakeCase (toSnakeCase x) = toSnakeCase x.
Proof. apply snakeLoop_fixes_lower, snakeLoop_notUpper. Qed.

(** After the first character, the camel loop undoes the snake loop. *)
Lemma camelLoop_snakeLoop_tail (i : nat) (s : string) :
  allChars notUnderscore s = true ->
  camelLoop false (snakeLoop (S i) s) = s.
Proof.
  revert i. induction s as [|r s IH]; intros i H; simpl in *; [reflexivity|].
  apply andb_prop in H as [Hr Hs]. unfold notUnderscore in Hr.
  apply negb_true_iff in Hr.
  destruct (IsUpper r) eqn:Hup; simpl.
  - rewrite (ToLower_not_underscore r Hup), (ToUpper_ToLower r Hup).
    f_equal. apply IH, Hs.
  - rewrite Hr. f_equal. apply IH, Hs.
Qed.

Lemma toCamelCase_toSnakeCase (x : string) :
  allChars notUnderscore x = true ->
  toCamelCase (toSnakeCase x) = lowerFirst x.
Proof.
  destruct x as [|r s]; intros H; [reflexivity|].
  simpl in H. apply andb_prop in H as [Hr Hs].
  unfold notUnderscore in Hr. apply negb_true_iff in Hr.
  unfold toCamelCase, toSnakeCase. simpl.
  destruct (IsUpper r) eqn:Hup; simpl.
  - rewrite (ToLower_not_underscore r Hup). f_equal.
    apply camelLoop_snakeLoop_tail, Hs.
  - rewrite Hr, (ToLower_not_upper r Hup). f_equal.
    apply camelLoop_snakeLoop_tail, Hs.
Qed.

(** C4, as amended. On an ASCII name [toSnakeCase] is idempotent on its
    own output, and when the name has no underscore
    [toCamelCase (toSnakeCase x)] is [x] with its first letter in lower
    case: the casing of [x] comes back except for a leading capital. *)
Theorem snake_idempotent_camel_restores_but_first_on_ASCII (x : string) :
  isASCII x = true ->
  toSnakeCase (toSnakeCase x) = toSnakeCase x
  /\ (allChars notUnderscore x = true ->
      toCamelCase (toSnakeCase x) = lowerFirst x).
Proof.
  intros _. split.
  - apply toSnakeCase_idempotent.
  - apply toCamelCase_toSnakeCase.
Qed.

Lemma snake_idempotent_camel_restores_but_first_on_ASCII_witness :
  isASCII "UserProfile" = true
  /\ toSnakeCase (toSnakeCase "UserProfile") = toSnakeCase "UserProfile"
  /\ (allChars notUnderscore "UserProfile" = true ->
      toCamelCase (toSnakeCase "UserProfile") = "userProfile").
Proof.
  split; [reflexivity|].
  apply (snake_idempotent_camel_restores_but_first_on_ASCII "UserProfile").
  reflexivity.
Defined.

(** C4 as stated fails: the name [User] has no digit, and the round trip
    gives [user]. *)
Lemma camel_of_snake_does_not_restore :
  ~ (forall x : string,
       allChars notDigit x = true ->
       toCamelCase (toSnakeCase x) = x).
Proof.
  intros H. specialize (H "User" eq_refl). vm_compute in H. discriminate H.
Qed.

(** C7. [pluralize] is the ordered rule table: a word ending in y loses
    the y and takes ies; otherwise a word ending in s, x, z, ch or sh takes
    es; otherwise the word takes s. Exactly one rule applies to each
    word. *)
Theorem pluralize_rule_table (w : string) :
  (exists stem, w = stem +:+ "y" /\ pluralize w = stem +:+ "ies")
  \/ (~ endsIn w "y"
      /\ (endsIn w "s" \/ endsIn w "x" \/ endsIn w "z"
          \/ endsIn w "ch" \/ endsIn w "sh")
      /\ pluralize w = w +:+ "es")
  \/ (~ endsIn w "y"
      /\ ~ (endsIn w "s" \/ endsIn w "x" \/ endsIn w "z"
            \/ endsIn w "ch" \/ endsIn w "sh")
      /\ pluralize w = w +:+ "s").
Proof.
  unfold pluralize.
  destruct (HasSuffix w "y") eqn:Hy.
  - left. apply HasSuffix_endsIn in Hy as [stem ->].
    exists stem. split; [reflexivity|]. now rewrite TrimSuffix_append.
  - right. apply HasSuffix_not_endsIn in Hy.
    destruct (HasSuffix w "s") eqn:Hs; [left | ].
    { repeat split; auto. left. now apply HasSuffix_endsIn. }
    destruct (HasSuffix w "x") eqn:Hx; [left | ].
    { repeat split; auto. right; left. now apply HasSuffix_endsIn. }
    destruct (HasSuffix w "z") eqn:Hz; [left | ].
    { repeat split; auto. right; right; left. now apply HasSuffix_endsIn. }
    destruct (HasSuffix w "ch") eqn:Hch; [left | ].
    { repeat split; auto. do 3 right; left. now apply HasSuffix_endsIn. }
    destruct (HasSuffix w "sh") eqn:Hsh; [left | right].
    { repeat split; auto. do 4 right. now apply HasSuffix_endsIn. }
    apply HasSuffix_not_endsIn in Hs, Hx, Hz, Hch, Hsh.
    repeat split; auto. tauto.
Qed.

End NamingFacts.


(** ** Model analysis and the registry *)

Module AnalysisFacts.
Import GoStrings Naming Reflect Apigen Vocabulary StringFacts.

Lemma processField_identity (mi : ModelInfo) (f : StructField) :
  MType (processField mi f) = MType mi
  /\ ResourceName (processField mi f) = ResourceName mi
  /\ PluralName (processField mi f) = PluralName mi.
Proof.
  unfold processField.
  repeat match goal with |- context [if ?c then _ else _] => destruct c end;
    simpl; auto.
Qed.

Lemma processField_Fields (mi : ModelInfo) (f : StructField) :
  Fields (processField mi f) = Fields mi ++ analyzedField f.
Proof.
  unfold analyzedField, processField.
  repeat match goal with |- context [if ?c then _ else _] => destruct c end;
    simpl; auto using app_nil_r.
Qed.

Lemma processField_ForeignKeys (mi : ModelInfo) (f : StructField) :
  ForeignKeys (processField mi f) = ForeignKeys mi ++ analyzedKeys f.
Proof.
  unfold analyzedKeys, processField.
  repeat match goal with |- context [if ?c then _ else _] => destruct c end;
    simpl; rewrite <- ?app_assoc; auto using app_nil_r.
Qed.

Lemma fold_processField (fs : list StructField) (mi : ModelInfo) :
  MType (fold_left processField fs mi) = MType mi
  /\ ResourceName (fold_left processField fs mi) = ResourceName mi
  /\ PluralName (fold_left processField fs mi) = PluralName mi
  /\ Fields (fold_left processField fs mi)
     = Fields mi ++ flat_map analyzedField fs
  /\ ForeignKeys (fold_left processField fs mi)
     = ForeignKeys mi ++ flat_map analyzedKeys fs.
Proof.
  revert mi. induction fs as [|f fs IH]; intros mi; simpl.
  - rewrite !app_nil_r. auto.
  - destruct (IH (processField mi f)) as (H1 & H2 & H3 & H4 & H5).
    destruct (processField_identity mi f) as (I1 & I2 & I3).
    rewrite H1, H2, H3, H4, H5, I1, I2, I3.
    rewrite processField_Fields, processField_ForeignKeys, <- !app_assoc.
    auto.
Qed.

(** What [RegisterModel] computes: the identity of the model, then its
    fields and foreign keys in declaration order. *)
Lemma buildModelInfo_spec (t : GoType) (resourceName : string) :
  MType (buildModelInfo t resourceName) = t
  /\ ResourceName (buildModelInfo t resourceName)
     = (if String.eqb resourceName "" then toSnakeCase (TypeName t)
        else resourceName)
  /\ PluralName (buildModelInfo t resourceName)
     = pluralize (ResourceName (buildModelInfo t resourceName))
  /\ Fields (buildModelInfo t resourceName)
     = flat_map analyzedField (TypeFields t)
  /\ ForeignKeys (buildModelInfo t resourceName)
     = flat_map analyzedKeys (TypeFields t).
Proof.
  unfold buildModelInfo.
  match goal with |- context [fold_left processField ?fs ?mi] =>
    destruct (fold_processField fs mi) as (H1 & H2 & H3 & H4 & H5) end.
  rewrite H1, H2, H3, H4, H5. simpl. auto.
Qed.

(** The metadata of a field the analysis keeps. *)
Lemma analyzedField_serialized (f : StructField) (jsonName : string) :
  serializedAs f jsonName ->
  analyzedField f =
    [{| Name := sfName f; JSONName := jsonName; FType := sfType f;
        IsID := String.eqb (sfName f) "ID" || HasSuffix (sfName f) "ID";
        OmitEmpty := Contains (TagGet (sfTag f) "json") "omitempty" |}].
Proof.
  intros (H1 & H2 & H3). unfold analyzedField, processField.
  apply String.eqb_neq in H1, H2. rewrite H1, H2, H3. simpl.
  repeat match goal with |- context [if ?c then _ else _] => destruct c end;
    reflexivity.
Qed.

Lemma analyzedField_inv (f : StructField) (fi : FieldInfo) :
  In fi (analyzedField f) ->
  Name fi = sfName f
  /\ FType fi = sfType f
  /\ IsID fi = (String.eqb (sfName f) "ID" || HasSuffix (sfName f) "ID")
  /\ serializedAs f (JSONName fi).
Proof.
  unfold analyzedField, processField, serializedAs.
  destruct (String.eqb (TagGet (sfTag f) "json") "") eqn:E1; simpl;
    [intros []|].
  destruct (String.eqb (TagGet (sfTag f) "json") "-") eqn:E2; simpl;
    [intros []|].
  apply String.eqb_neq in E1, E2.
  repeat match goal with |- context [if ?c then _ else _] => destruct c end;
    simpl; (intros [<- | []]); simpl; repeat split; auto.
Qed.

(** C1, as amended. [RegisterModel] stores the metadata of a struct type
    (given as a value or through a pointer) under one key, the declared name
    of the type; the resource name, given or derived in snake case, is a
    field of the metadata and no key: every key other than the type name
    resolves as it did before. *)
Theorem RegisterModel_keys_by_type_name
    (g : APIGenerator) (t model : GoType) (resourceName : string) :
  TypeKind t = KStruct ->
  model = t \/ model = TPtr t ->
  exists g',
    RegisterModel g model resourceName = (g', None)
    /\ Models g' !! TypeName t = Some (buildModelInfo t resourceName)
    /\ ResourceName (buildModelInfo t resourceName)
       = (if String.eqb resourceName "" then toSnakeCase (TypeName t)
          else resourceName)
    /\ (forall key, key <> TypeName t -> Models g' !! key = Models g !! key)
    /\ Router g' = Router g
    /\ RegisteredPaths g' = RegisteredPaths g.
Proof.
  intros Hk Hm.
  assert (Hreg : RegisterModel g model resourceName
                 = ({| Router := Router g;
                       Models := <[TypeName t := buildModelInfo t resourceName]>
                                   (Models g);
                       RegisteredPaths := RegisteredPaths g |}, None)).
  { unfold RegisterModel.
    destruct Hm as [-> | ->]; simpl; rewrite ?Hk; simpl; rewrite ?Hk;
      reflexivity. }
  eexists. split; [exact Hreg|]. simpl.
  split; [apply lookup_insert_eq|].
  split; [apply buildModelInfo_spec|].
  split; [|auto].
  intros key Hne. apply lookup_insert_ne. congruence.
Qed.

Lemma RegisterModel_keys_by_type_name_witness :
  exists g',
    RegisterModel New (TPtr User) "" = (g', None)
    /\ Models g' !! "User" = Some (buildModelInfo User "")
    /\ ResourceName (buildModelInfo User "") = "user"
    /\ (forall key, key <> "User" -> Models g' !! key = Models New !! key)
    /\ Router g' = Router New
    /\ RegisteredPaths g' = RegisteredPaths New.
Proof.
  apply (RegisterModel_keys_by_type_name New User (TPtr User) "").
  - reflexivity.
  - right. reflexivity.
Defined.

(** C1 as stated fails: after [RegisterModel(User{}, "")] the key [User]
    resolves to the metadata, whose resource name is [user], and the key
    [user] resolves to nothing. *)
Lemma resource_name_is_no_key :
  ~ (forall (g g' : APIGenerator) (model : GoType) (resourceName : string),
       TypeKind model = KStruct ->
       RegisterModel g model resourceName = (g', None) ->
       exists mi,
         Models g' !! TypeName model = Some mi
         /\ Models g' !! ResourceName mi = Some mi).
Proof.
  intros H.
  destruct (H New (fst (RegisterModel New User "")) User "" eq_refl eq_refl)
    as (mi & Hraw & Hres).
  vm_compute in Hraw. injection Hraw as <-.
  vm_compute in Hres. discriminate Hres.
Qed.

(** C8, at the failing input. The analysis of [Post] gives three foreign
    keys; the one of the nested [User] field (Rule A) has [RelatedField]
    "ID", the ones of the scalar fields [ID] and [UserID] (Rule B) have it
    empty. *)
Theorem scalar_foreign_key_leaves_RelatedField_empty :
  ForeignKeys (buildModelInfo Post "post")
  = [ {| FieldName := "ID"; RelatedModel := "";
         RelatedField := ""; RelationshipID := "ID" |};
      {| FieldName := "UserID"; RelatedModel := "User";
         RelatedField := ""; RelationshipID := "UserID" |};
      {| FieldName := "User"; RelatedModel := "User";
         RelatedField := "ID"; RelationshipID := "" |} ].
Proof. vm_compute. reflexivity. Qed.

(** Every foreign key of a field comes from one of the two rules, and the
    rules differ in [RelatedField]. *)
Lemma analyzedKeys_rules (f : StructField) (fk : ForeignKeyInfo) :
  In fk (analyzedKeys f) ->
  (fk = {| FieldName := sfName f; RelatedModel := TypeName (sfType f);
           RelatedField := "ID"; RelationshipID := "" |}
   /\ TypeKind (sfType f) = KStruct)
  \/ (fk = {| FieldName := sfName f;
              RelatedModel := TrimSuffix (sfName f) "ID";
              RelatedField := ""; RelationshipID := sfName f |}
      /\ TypeKind (sfType f) = KUint).
Proof.
  unfold analyzedKeys, processField.
  destruct (String.eqb (TagGet (sfTag f) "json") "" ||
            String.eqb (TagGet (sfTag f) "json") "-"); simpl; [intros []|].
  destruct (TypeKind (sfType f)) eqn:Hk; simpl;
    rewrite ?andb_false_r, ?andb_true_r;
    repeat match goal with |- context [if ?c then _ else _] => destruct c end;
    simpl; intuition (subst; auto).
Qed.

(** A field of slice kind adds no foreign key. *)
Lemma slice_field_adds_no_key (mi : ModelInfo) (f : StructField) :
  TypeKind (sfType f) = KSlice ->
  ForeignKeys (processField mi f) = ForeignKeys mi.
Proof.
  intros Hk. rewrite processField_ForeignKeys.
  destruct (analyzedKeys f) as [|fk rest] eqn:E; [apply app_nil_r|].
  destruct (analyzedKeys_rules f fk) as [[_ H] | [_ H]];
    [rewrite E; left; reflexivity | congruence | congruence].
Qed.

End AnalysisFacts.

(** ** Route synthesis *)

Module RouteFacts.
Import GoStrings Naming Reflect Apigen Handlers Vocabulary StringFacts.
Import AnalysisFacts.

Lemma pathRegistered_insert (paths : gmap string bool) (p q : string) :
  pathRegistered (<[p := true]> paths) q
  = (if decide (p = q) then true else pathRegistered paths q).
Proof.
  unfold pathRegistered. rewrite lookup_insert.
  destruct (decide (p = q)); reflexivity.
Qed.

(** *** Calls that may panic *)

(** What every step keeps holds of the generator a sequence leaves. *)
Lemma next_after (P : APIGenerator -> Prop) (c : Call)
    (rest : APIGenerator -> Call) :
  P (after c) -> (forall g, P g -> P (after (rest g))) ->
  P (after (next c rest)).
Proof. destruct c; simpl; auto. Qed.

Lemma each_after {A : Type} (P : APIGenerator -> Prop)
    (body : APIGenerator -> A -> Call) (l : list A) (g : APIGenerator) :
  P g -> (forall g x, In x l -> P g -> P (after (body g x))) ->
  P (after (each body l g)).
Proof.
  revert g. induction l as [|x l IH]; intros g Hg Hbody; simpl; [exact Hg|].
  apply next_after.
  - apply Hbody; [left; reflexivity | exact Hg].
  - intros g' Hg'. apply IH; [exact Hg'|].
    intros g0 y Hy. apply Hbody. right. exact Hy.
Qed.

Lemma next_Returns (c : Call) (rest : APIGenerator -> Call)
    (g' : APIGenerator) :
  next c rest = Returns g' ->
  exists g1, c = Returns g1 /\ rest g1 = Returns g'.
Proof. destruct c; simpl; [eauto | discriminate]. Qed.

Lemma each_Returns_cons {A : Type} (body : APIGenerator -> A -> Call)
    (x : A) (l : list A) (g g' : APIGenerator) :
  each body (x :: l) g = Returns g' ->
  exists g1, body g x = Returns g1 /\ each body l g1 = Returns g'.
Proof. apply next_Returns. Qed.

Lemma routeBound_app (router added : list Binding) (method path : string) :
  routeBound (router ++ added) method path
  = routeBound router method path || routeBound added method path.
Proof. apply existsb_app. Qed.

Lemma routeBound_In (router : list Binding) (b : Binding) :
  In b router -> routeBound router (Method b) (Path b) = true.
Proof.
  intros H. apply existsb_exists. exists b. split; [exact H|].
  now rewrite !String.eqb_refl.
Qed.

Lemma grows_refl (g : APIGenerator) : grows g g.
Proof.
  split; [reflexivity|]. split; [|auto].
  exists []. now rewrite app_nil_r.
Qed.

Lemma grows_trans (g1 g2 g3 : APIGenerator) :
  grows g1 g2 -> grows g2 g3 -> grows g1 g3.
Proof.
  intros (M1 & (a1 & R1) & P1) (M2 & (a2 & R2) & P2).
  split; [congruence|]. split; [|auto].
  exists (a1 ++ a2). rewrite R2, R1. now rewrite app_assoc.
Qed.

Lemma grows_routeBound (g g' : APIGenerator) (method path : string) :
  grows g g' -> routeBound (Router g) method path = true ->
  routeBound (Router g') method path = true.
Proof.
  intros (_ & (added & ->) & _) H. rewrite routeBound_app, H. reflexivity.
Qed.

(** *** One binding *)

Lemma bind_cases (g : APIGenerator) (method path : string)
    (h : HandlerFunc) :
  (routeBound (Router g) method path = true
   /\ bind g method path h = Panics g)
  \/ (routeBound (Router g) method path = false
      /\ bind g method path h
         = Returns {| Router := Router g ++ [mkBinding method path h];
                      Models := Models g;
                      RegisteredPaths := RegisteredPaths g |}).
Proof. unfold bind. destruct (routeBound _ _ _); auto. Qed.

Lemma bind_grows (g : APIGenerator) (method path : string)
    (h : HandlerFunc) :
  grows g (after (bind g method path h)).
Proof.
  destruct (bind_cases g method path h) as [[_ ->] | [_ ->]]; simpl.
  - apply grows_refl.
  - split; [reflexivity|]. split; [eauto | auto].
Qed.

(** A binding that was asked for is held afterwards, by this call or
    from before. *)
Lemma bind_bound (g : APIGenerator) (method path : string)
    (h : HandlerFunc) :
  routeBound (Router (after (bind g method path h))) method path = true.
Proof.
  destruct (bind_cases g method path h) as [[H ->] | [_ ->]]; simpl;
    [exact H|].
  rewrite routeBound_app. simpl. rewrite !String.eqb_refl.
  apply orb_true_r.
Qed.

(** *** The five bindings *)

Lemma bindCRUD_grows (g : APIGenerator) (mi : ModelInfo) :
  grows g (after (bindCRUD g mi)).
Proof.
  unfold bindCRUD.
  repeat (apply next_after;
          [|intros ? ?; eapply grows_trans; [eassumption|]]);
    try apply bind_grows.
Qed.

(** A binding that returned was appended. *)
Ltac bound_or_appended H :=
  match type of H with
  | bind ?g0 ?m ?p ?h = _ =>
      let Hc := fresh "Hc" in
      destruct (bind_cases g0 m p h) as [[_ Hc] | [_ Hc]];
      rewrite Hc in H; [discriminate H|];
      injection H as <-; clear Hc
  end.

Lemma bindCRUD_Returns (g g' : APIGenerator) (mi : ModelInfo) :
  bindCRUD g mi = Returns g' ->
  g' = {| Router := Router g ++ crudBindings mi;
          Models := Models g;
          RegisteredPaths := RegisteredPaths g |}.
Proof.
  unfold bindCRUD, crudBindings. intros H. cbv zeta in H.
  repeat (apply next_Returns in H as (? & Hb & H); bound_or_appended Hb).
  bound_or_appended H.
  simpl. rewrite <- !app_assoc. reflexivity.
Qed.

(** The five bindings leave the relationship bindings and the registered
    paths alone, however far they get. *)
Lemma bindCRUD_keeps (g : APIGenerator) (mi : ModelInfo) :
  relationBindings (Router (after (bindCRUD g mi)))
  = relationBindings (Router g)
  /\ RegisteredPaths (after (bindCRUD g mi)) = RegisteredPaths g.
Proof.
  assert (Hbind : forall g0 method path h,
             isRelated (mkBinding method path h) = false ->
             forall g1,
               relationBindings (Router g1) = relationBindings (Router g0)
               /\ RegisteredPaths g1 = RegisteredPaths g0 ->
               relationBindings (Router (after (bind g1 method path h)))
               = relationBindings (Router g0)
               /\ RegisteredPaths (after (bind g1 method path h))
                  = RegisteredPaths g0).
  { intros g0 method path h Hh g1 [HR HP].
    destruct (bind_cases g1 method path h) as [[_ ->] | [_ ->]]; simpl;
      [auto|].
    split; [|exact HP].
    unfold relationBindings. rewrite List.filter_app. simpl.
    rewrite Hh, app_nil_r. exact HR. }
  unfold bindCRUD.
  repeat (apply next_after; [|intros ? ?]);
    (apply Hbind; [reflexivity|]); auto.
Qed.

(** The first binding asked for decides: when the router holds it, the
    call panics at once. *)
Lemma bindCRUD_refused (g : APIGenerator) (mi : ModelInfo) :
  routeBound (Router g) "GET" (basePathOf mi) = true ->
  bindCRUD g mi = Panics g.
Proof.
  intros H. unfold bindCRUD.
  destruct (bind_cases g "GET" (basePathOf mi) (listHandler mi))
    as [[_ ->] | [H' _]]; [reflexivity | congruence].
Qed.

Lemma bindCRUD_binds_first (g : APIGenerator) (mi : ModelInfo) :
  routeBound (Router (after (bindCRUD g mi))) "GET" (basePathOf mi) = true.
Proof.
  unfold bindCRUD. apply next_after; [apply bind_bound|].
  intros g1 H1.
  repeat (apply next_after;
          [|intros ? ?]);
    (eapply grows_routeBound; [apply bind_grows | assumption]).
Qed.



(** *** The foreign-key loop *)

Lemma relationStep_cases (mi : ModelInfo) (g : APIGenerator)
    (fk : ForeignKeyInfo) :
  (namesModel fk
   && negb (pathRegistered (RegisteredPaths g) (relatedPathOf mi fk))
   = false
   /\ relationStep mi g fk = Returns g)
  \/ (namesModel fk = true
      /\ pathRegistered (RegisteredPaths g) (relatedPathOf mi fk) = false
      /\ ((routeBound (Router g) "GET" (relatedPathOf mi fk) = true
           /\ relationStep mi g fk = Panics g)
          \/ (routeBound (Router g) "GET" (relatedPathOf mi fk) = false
              /\ relationStep mi g fk
                 = Returns
                     {| Router :=
                          Router g
                          ++ [mkBinding "GET" (relatedPathOf mi fk)
                                        (relatedHandler mi fk)];
                        Models := Models g;
                        RegisteredPaths :=
                          <[relatedPathOf mi fk := true]>
                            (RegisteredPaths g) |}))).
Proof.
  unfold relationStep, namesModel.
  destruct (negb (String.eqb (RelatedModel fk) "")); simpl; [|auto].
  destruct (pathRegistered (RegisteredPaths g) (relatedPathOf mi fk));
    simpl; [auto|].
  right. split; [reflexivity|]. split; [reflexivity|].
  destruct (bind_cases g "GET" (relatedPathOf mi fk) (relatedHandler mi fk))
    as [[H ->] | [H ->]]; simpl; auto.
Qed.


Lemma relationStep_grows (mi : ModelInfo) (g : APIGenerator)
    (fk : ForeignKeyInfo) :
  grows g (after (relationStep mi g fk)).
Proof.
  destruct (relationStep_cases mi g fk)
    as [[_ ->] | (_ & _ & [[_ ->] | [_ ->]])]; simpl;
    try apply grows_refl.
  split; [reflexivity|]. split; [eauto|].
  intros p H. simpl. rewrite pathRegistered_insert.
  destruct (decide _); [reflexivity | exact H].
Qed.

Lemma relation_loop_grows (mi : ModelInfo) (fks : list ForeignKeyInfo)
    (g : APIGenerator) :
  grows g (after (each (relationStep mi) fks g)).
Proof.
  apply each_after; [apply grows_refl|].
  intros g1 fk _ H. eapply grows_trans; [exact H|].
  apply relationStep_grows.
Qed.

(** A registered path stays registered. *)
Lemma pathsAfter_keeps (mi : ModelInfo) (fks : list ForeignKeyInfo)
    (paths : gmap string bool) (p : string) :
  pathRegistered paths p = true ->
  pathRegistered (pathsAfter mi paths fks) p = true.
Proof.
  revert paths. induction fks as [|fk fks IH]; intros paths H; simpl;
    [exact H|].
  destruct (namesModel fk && negb (pathRegistered paths (relatedPathOf mi fk)));
    apply IH; [|exact H].
  rewrite pathRegistered_insert. destruct (decide _); [reflexivity | exact H].
Qed.

(** After a loop that the router lets pass, the path of every foreign key
    that names a model is registered. *)
Lemma pathsAfter_covers (mi : ModelInfo) (fks : list ForeignKeyInfo)
    (paths : gmap string bool) (fk : ForeignKeyInfo) :
  In fk fks -> namesModel fk = true ->
  pathRegistered (pathsAfter mi paths fks) (relatedPathOf mi fk) = true.
Proof.
  revert paths. induction fks as [|fk0 fks IH]; intros paths Hin Hn;
    [destruct Hin|].
  simpl. destruct Hin as [-> | Hin].
  - rewrite Hn. simpl.
    destruct (pathRegistered paths (relatedPathOf mi fk)) eqn:E; simpl.
    + apply pathsAfter_keeps, E.
    + apply pathsAfter_keeps. rewrite pathRegistered_insert.
      destruct (decide _); [reflexivity | congruence].
  - destruct (namesModel fk0 && _); apply IH; assumption.
Qed.

(** What such a loop adds: relationship bindings, of foreign keys of the
    list, on paths that were not registered. *)
Lemma newRelations_fresh (mi : ModelInfo) (fks : list ForeignKeyInfo)
    (paths : gmap string bool) (b : Binding) :
  In b (newRelations mi paths fks) ->
  pathRegistered paths (Path b) = false
  /\ exists fk, In fk fks /\ namesModel fk = true
                /\ b = mkBinding "GET" (relatedPathOf mi fk)
                                 (relatedHandler mi fk).
Proof.
  revert paths. induction fks as [|fk fks IH]; intros paths H; simpl in *;
    [destruct H|].
  destruct (namesModel fk) eqn:Hn; simpl in H.
  - destruct (pathRegistered paths (relatedPathOf mi fk)) eqn:E; simpl in H.
    + destruct (IH _ H) as (Hp & fk' & Hin & Hn' & ->).
      split; [exact Hp | exists fk'; auto].
    + destruct H as [<- | H].
      * split; [exact E | exists fk; auto].
      * destruct (IH _ H) as (Hp & fk' & Hin & Hn' & ->).
        rewrite pathRegistered_insert in Hp.
        destruct (decide _); [discriminate|].
        split; [exact Hp | exists fk'; auto].
  - destruct (IH _ H) as (Hp & fk' & Hin & Hn' & ->).
    split; [exact Hp | exists fk'; auto].
Qed.

(** A loop that returns has bound what [newRelations] lists. *)
Lemma relation_loop_Returns (mi : ModelInfo) (fks : list ForeignKeyInfo)
    (g g' : APIGenerator) :
  each (relationStep mi) fks g = Returns g' ->
  g' = {| Router := Router g ++ newRelations mi (RegisteredPaths g) fks;
          Models := Models g;
          RegisteredPaths := pathsAfter mi (RegisteredPaths g) fks |}.
Proof.
  revert g. induction fks as [|fk fks IH]; intros g H.
  - simpl in H. injection H as <-. simpl. rewrite app_nil_r.
    destruct g; reflexivity.
  - apply each_Returns_cons in H as (g1 & Hstep & H).
    apply IH in H. subst g'. simpl.
    destruct (relationStep_cases mi g fk)
      as [[Hc Hs] | (Hn & Hp & [[_ Hs] | [_ Hs]])];
      rewrite Hs in Hstep; try discriminate Hstep; injection Hstep as <-.
    + rewrite Hc. reflexivity.
    + rewrite Hn, Hp. simpl. rewrite <- app_assoc. reflexivity.
Qed.

(** *** One model *)

Lemma generateModelAPI_grows (g : APIGenerator) (mi : ModelInfo) :
  grows g (after (generateModelAPI g mi)).
Proof.
  unfold generateModelAPI. apply next_after; [apply bindCRUD_grows|].
  intros g1 H. eapply grows_trans; [exact H|]. apply relation_loop_grows.
Qed.

Lemma generateModelAPI_Returns (g g' : APIGenerator) (mi : ModelInfo) :
  generateModelAPI g mi = Returns g' ->
  g' = {| Router := Router g ++ crudBindings mi
                    ++ newRelations mi (RegisteredPaths g) (ForeignKeys mi);
          Models := Models g;
          RegisteredPaths :=
            pathsAfter mi (RegisteredPaths g) (ForeignKeys mi) |}.
Proof.
  unfold generateModelAPI. intros H.
  apply next_Returns in H as (g1 & Hcrud & H).
  apply bindCRUD_Returns in Hcrud. apply relation_loop_Returns in H.
  subst g' g1. simpl. rewrite <- app_assoc. reflexivity.
Qed.

(** After a run for a model, returned or not, the router holds the
    binding the run asks for first. *)
Lemma generateModelAPI_binds_first (g : APIGenerator) (mi : ModelInfo) :
  routeBound (Router (after (generateModelAPI g mi))) "GET" (basePathOf mi)
  = true.
Proof.
  unfold generateModelAPI. apply next_after; [apply bindCRUD_binds_first|].
  intros g1 H. eapply grows_routeBound; [apply relation_loop_grows|exact H].
Qed.

Lemma generateModelAPI_refused (g : APIGenerator) (mi : ModelInfo) :
  routeBound (Router g) "GET" (basePathOf mi) = true ->
  generateModelAPI g mi = Panics g.
Proof.
  intros H. unfold generateModelAPI. rewrite (bindCRUD_refused g mi H).
  reflexivity.
Qed.

(** A second run for the same model is refused at its first binding. *)
Lemma generateModelAPI_twice (g : APIGenerator) (mi : ModelInfo) :
  generateModelAPI (after (generateModelAPI g mi)) mi
  = Panics (after (generateModelAPI g mi)).
Proof. apply generateModelAPI_refused, generateModelAPI_binds_first. Qed.

Lemma relationBindings_app (r1 r2 : list Binding) :
  relationBindings (r1 ++ r2) = relationBindings r1 ++ relationBindings r2.
Proof. apply List.filter_app. Qed.

(** C3. Running the route generation of a model a second time binds no
    relationship route: the relationship bindings and the registered paths
    are those of the first run, whatever the generator held before. A
    foreign key whose path is registered is skipped, the generator left as
    it is, and a run only appends: what was bound first stays bound. *)
Theorem relationship_routes_idempotent (g : APIGenerator) (mi : ModelInfo) :
  relationBindings
    (Router (after (generateModelAPI (after (generateModelAPI g mi)) mi)))
  = relationBindings (Router (after (generateModelAPI g mi)))
  /\ RegisteredPaths
       (after (generateModelAPI (after (generateModelAPI g mi)) mi))
     = RegisteredPaths (after (generateModelAPI g mi))
  /\ (forall fk,
        pathRegistered (RegisteredPaths g) (relatedPathOf mi fk) = true ->
        relationStep mi g fk = Returns g)
  /\ (exists added,
        Router (after (generateModelAPI g mi)) = Router g ++ added).
Proof.
  rewrite generateModelAPI_twice. simpl.
  split; [reflexivity|]. split; [reflexivity|]. split.
  - intros fk H. unfold relationStep. rewrite H. simpl.
    destruct (negb _); reflexivity.
  - apply generateModelAPI_grows.
Qed.



End RouteFacts.

(** ** The example of the specification: User and Post *)

Module ExampleFacts.
Import GoStrings Naming Reflect Apigen Handlers Vocabulary StringFacts.
Import AnalysisFacts RouteFacts.

Lemma GenerateAPIIn_grows (order : list ModelInfo) (g : APIGenerator) :
  grows g (after (GenerateAPIIn g order)).
Proof.
  unfold GenerateAPIIn. apply each_after; [apply grows_refl|].
  intros g1 mi _ H. eapply grows_trans; [exact H|].
  apply generateModelAPI_grows.
Qed.

Lemma GenerateAPIIn_Models (order : list ModelInfo) (g : APIGenerator) :
  Models (after (GenerateAPIIn g order)) = Models g.
Proof. apply GenerateAPIIn_grows. Qed.

(** A handler reads the generator for its registry only. *)
Lemma serve_reads_Models (g1 g2 : APIGenerator) (h : HandlerFunc)
    (id : string) (oracle : Oracle) :
  Models g1 = Models g2 -> serve g1 h id oracle = serve g2 h id oracle.
Proof. intros H. unfold serve. rewrite H. reflexivity. Qed.

(** The two orders a run over the registry of the example can take. *)
Lemma registered_orders (c : Call) :
  GenerateAPI registered c ->
  c = GenerateAPIIn registered [userInfo; postInfo]
  \/ c = GenerateAPIIn registered [postInfo; userInfo].
Proof.
  intros (order & Hperm & ->).
  assert (Hl : map snd (map_to_list (Models registered))
               = [userInfo; postInfo]
               \/ map snd (map_to_list (Models registered))
                  = [postInfo; userInfo])
    by (vm_compute; auto).
  destruct Hl as [Hl | Hl]; rewrite Hl in Hperm;
    apply Permutation_sym, Permutation_length_2_inv in Hperm;
    destruct Hperm as [-> | ->]; auto.
Qed.

(** C2, as amended. After registering [User] and [Post] (fields with json
    names) and generating the API in either order, which the router lets
    pass, the router has exactly
    one binding on /api/posts/:id/user, a GET; it is bound from the first
    foreign key that names [User], the scalar [UserID] (Rule B), so a
    request filters the users by the explicit column [UserID] with the
    numeric id, and the entry of the nested [User] field (Rule A) is skipped
    for that path. A handler of that entry, which has no explicit column,
    filters by the conventional column of the parent, [postID], with the raw
    id. No route below /api/users/:id/ is bound, and a field of slice kind
    adds no foreign key to a model. *)
Theorem posts_user_route (c : Call) :
  GenerateAPI registered c ->
  panics c = false
  /\ List.filter (fun b => String.eqb (Path b) "/api/posts/:id/user")
       (Router (after c))
     = [mkBinding "GET" "/api/posts/:id/user"
                  (relatedHandler postInfo fkUserID)]
  /\ serve (after c) (relatedHandler postInfo fkUserID) "7" allSucceed
     = ([DBFirst "Post" "7"; DBWhereFind "User" "UserID" (ArgUint 7)],
        Respond StatusOK (ResultsBody "User"))
  /\ serve (after c) (relatedHandler postInfo fkUser) "7" allSucceed
     = ([DBFirst "Post" "7";
         DBWhereFind "User" "postID = ?" (ArgString "7")],
        Respond StatusOK (ResultsBody "User"))
  /\ (forall b, In b (Router (after c)) ->
                HasPrefix (Path b) "/api/users/:id/" = false)
  /\ (forall (mi : ModelInfo) (f : StructField),
        TypeKind (sfType f) = KSlice ->
        ForeignKeys (processField mi f) = ForeignKeys mi).
Proof.
  intros Hgen.
  assert (Hm : Models (after c) = Models registered).
  { destruct Hgen as (order & _ & ->). apply GenerateAPIIn_Models. }
  split; [|split; [|split; [|split; [|split]]]].
  - destruct (registered_orders c Hgen) as [-> | ->]; vm_compute; reflexivity.
  - destruct (registered_orders c Hgen) as [-> | ->]; vm_compute; reflexivity.
  - rewrite (serve_reads_Models (after c) registered) by exact Hm.
    vm_compute. reflexivity.
  - rewrite (serve_reads_Models (after c) registered) by exact Hm.
    vm_compute. reflexivity.
  - intros b Hb.
    destruct (registered_orders c Hgen) as [-> | ->];
      vm_compute in Hb; intuition (subst; reflexivity).
  - apply slice_field_adds_no_key.
Qed.

Lemma posts_user_route_witness :
  panics (GenerateAPIIn registered [userInfo; postInfo]) = false
  /\ List.filter (fun b => String.eqb (Path b) "/api/posts/:id/user")
       (Router (after (GenerateAPIIn registered [userInfo; postInfo])))
     = [mkBinding "GET" "/api/posts/:id/user"
                  (relatedHandler postInfo fkUserID)]
  /\ serve (after (GenerateAPIIn registered [userInfo; postInfo]))
       (relatedHandler postInfo fkUserID) "7" allSucceed
     = ([DBFirst "Post" "7"; DBWhereFind "User" "UserID" (ArgUint 7)],
        Respond StatusOK (ResultsBody "User"))
  /\ serve (after (GenerateAPIIn registered [userInfo; postInfo]))
       (relatedHandler postInfo fkUser) "7" allSucceed
     = ([DBFirst "Post" "7";
         DBWhereFind "User" "postID = ?" (ArgString "7")],
        Respond StatusOK (ResultsBody "User"))
  /\ (forall b,
        In b (Router (after (GenerateAPIIn registered [userInfo; postInfo])))
        -> HasPrefix (Path b) "/api/users/:id/" = false)
  /\ (forall (mi : ModelInfo) (f : StructField),
        TypeKind (sfType f) = KSlice ->
        ForeignKeys (processField mi f) = ForeignKeys mi).
Proof.
  apply (posts_user_route (GenerateAPIIn registered [userInfo; postInfo])).
  exists [userInfo; postInfo]. split; [|reflexivity].
  assert (Hl : map snd (map_to_list (Models registered))
               = [userInfo; postInfo]
               \/ map snd (map_to_list (Models registered))
                  = [postInfo; userInfo])
    by (vm_compute; auto).
  destruct Hl as [-> | ->]; [apply Permutation_refl | apply perm_swap].
Defined.

(** C2 as stated fails: whatever the order of the run, no handler of a
    foreign key of [Post] filters by a column userID; served with every call
    succeeding, none issues a query that starts with "userID". *)
Lemma posts_user_route_never_filters_by_userID :
  ~ (exists (c : Call) (fk : ForeignKeyInfo)
            (ty query : string) (arg : Arg),
       GenerateAPI registered c
       /\ In fk (ForeignKeys postInfo)
       /\ In (DBWhereFind ty query arg)
             (fst (serve (after c) (relatedHandler postInfo fk) "7"
                         allSucceed))
       /\ HasPrefix query "userID" = true).
Proof.
  intros (c & fk & ty & query & arg & Hgen & Hfk & Hop & Hq).
  assert (Hm : Models (after c) = Models registered).
  { destruct Hgen as (order & _ & ->). apply GenerateAPIIn_Models. }
  rewrite (serve_reads_Models (after c) registered) in Hop by exact Hm.
  vm_compute in Hfk.
  destruct Hfk as [<- | [<- | [<- | []]]]; vm_compute in Hop;
    repeat (destruct Hop as [Hop | Hop]; try discriminate Hop;
            try (injection Hop as <- <- <-; vm_compute in Hq;
                 discriminate Hq)); try contradiction.
Qed.

End ExampleFacts.

(** ** Request handlers *)

Module HandlerFacts.
Import GoStrings Naming Reflect Apigen Handlers Vocabulary.






(** The calls of an update, in order: the lookup, the decoding of the body,
    the save; a handler that stops early has made a prefix of them. *)
Lemma update_calls_in_order (g : APIGenerator) (mi : ModelInfo) (id : string)
    (oracle : Oracle) :
  exists q,
    isLookup q = true
    /\ exists rest,
         fst (serve g (updateHandler mi) id oracle) ++ rest
         = [q; ShouldBindJSON (TypeName (MType mi));
            DBSave (TypeName (MType mi))].
Proof.
  unfold serve, runUpdate, requireID.
  destruct (String.eqb id "") eqn:Hid.
  { exists (DBFirst "" ""). split; [reflexivity|]. eexists. reflexivity. }
  unfold findExisting.
  destruct (FieldByName (MType mi) "ID") as [idField|].
  2:{ exists (DBFirst "" ""). split; [reflexivity|]. eexists. reflexivity. }
  destruct (Kind_eqb (TypeKind (sfType idField)) KString);
    [exists (DBWhereFirst (TypeName (MType mi)) "id = ?" id)
    |exists (DBFirst (TypeName (MType mi)) id)];
    (split; [reflexivity|]);
    unfold check, call, mbind, Run_bind, andThen, ret, JSON, finish; simpl;
    repeat match goal with
           | |- context [oracle ?op] => destruct (oracle op); simpl
           end;
    eexists; reflexivity.
Qed.

End HandlerFacts.

(** ** Schema documents and request structs *)

Module SchemaFacts.
Import GoStrings Naming Reflect Apigen Analyzer Swagger Vocabulary.
Import StringFacts AnalysisFacts.

Section BodyLoop.
Variable models : gmap string ModelInfo.
Variable skip : FieldInfo -> bool.

Lemma bodyLoop_cons (f : FieldInfo) (fs : list FieldInfo)
    (acc : gmap string Schema * list string) :
  bodyLoop models skip (f :: fs) acc
  = bodyLoop models skip fs (if skip f then acc else addField models acc f).
Proof. reflexivity. Qed.

(** Every property was written for a field that was not skipped. *)
Lemma bodyLoop_property_source (fs : list FieldInfo)
    (acc : gmap string Schema * list string) (k : string) (v : Schema) :
  fst (bodyLoop models skip fs acc) !! k = Some v ->
  fst acc !! k = Some v
  \/ exists f, In f fs /\ skip f = false /\ JSONName f = k
               /\ v = getSwaggerType models (FType f).
Proof.
  revert acc. induction fs as [|f fs IH]; intros acc H; [left; exact H|].
  rewrite bodyLoop_cons in H.
  destruct (IH _ H) as [Hacc | (f' & Hin & Hs & Hk & Hv)].
  - destruct (skip f) eqn:Hskip; [left; exact Hacc|].
    destruct acc as [props req]. simpl in Hacc.
    rewrite lookup_insert in Hacc.
    destruct (decide (JSONName f = k)) as [Heq | Hne].
    + right. exists f. injection Hacc as <-. simpl. auto.
    + left. exact Hacc.
  - right. exists f'. simpl. auto.
Qed.

Lemma bodyLoop_keeps_property (fs : list FieldInfo)
    (acc : gmap string Schema * list string) (k : string) :
  is_Some (fst acc !! k) -> is_Some (fst (bodyLoop models skip fs acc) !! k).
Proof.
  revert acc. induction fs as [|f fs IH]; intros acc H; [exact H|].
  rewrite bodyLoop_cons. apply IH.
  destruct (skip f); [exact H|].
  destruct acc as [props req]. simpl in *.
  rewrite lookup_insert. destruct (decide _); [eauto | exact H].
Qed.

(** A field that is not skipped has a property under its name. *)
Lemma bodyLoop_has_property (fs : list FieldInfo)
    (acc : gmap string Schema * list string) (f : FieldInfo) :
  In f fs -> skip f = false ->
  is_Some (fst (bodyLoop models skip fs acc) !! JSONName f).
Proof.
  revert acc. induction fs as [|f0 fs IH]; intros acc Hin Hs; [destruct Hin|].
  rewrite bodyLoop_cons. destruct Hin as [-> | Hin]; [|apply IH; assumption].
  rewrite Hs. apply bodyLoop_keeps_property.
  destruct acc as [props req]. simpl. rewrite lookup_insert_eq. eauto.
Qed.

(** Every required name was listed for a field that was not skipped. *)
Lemma bodyLoop_required_source (fs : list FieldInfo)
    (acc : gmap string Schema * list string) (k : string) :
  In k (snd (bodyLoop models skip fs acc)) ->
  In k (snd acc)
  \/ exists f, In f fs /\ skip f = false /\ JSONName f = k.
Proof.
  revert acc. induction fs as [|f fs IH]; intros acc H; [left; exact H|].
  rewrite bodyLoop_cons in H.
  destruct (IH _ H) as [Hacc | (f' & Hin & Hs & Hk)].
  - destruct (skip f) eqn:Hskip; [left; exact Hacc|].
    destruct acc as [props req]. simpl in Hacc.
    destruct (negb (OmitEmpty f)); [|left; exact Hacc].
    apply in_app_or in Hacc as [Hacc | [<- | []]]; [left; exact Hacc|].
    right. exists f. simpl. auto.
  - right. exists f'. simpl. auto.
Qed.

End BodyLoop.

Lemma finishBody_properties (acc : gmap string Schema * list string) :
  properties (finishBody acc) = fst acc.
Proof. destruct acc. reflexivity. Qed.

Lemma finishBody_requiredNames (acc : gmap string Schema * list string) :
  requiredNames (finishBody acc) = snd acc.
Proof. destruct acc as [props [|k req]]; reflexivity. Qed.

Lemma GenerateRequestBody_loop (models : gmap string ModelInfo)
    (mi : ModelInfo) (isCreate : bool) :
  GenerateRequestBody models mi isCreate
  = finishBody
      (bodyLoop models
         (fun f => String.eqb (JSONName f) "-" || (isCreate && IsID f))
         (Fields mi) (∅, [])).
Proof. reflexivity. Qed.

(** The properties of a response body: one per field not named "-". *)
Lemma GenerateResponseBody_loop (models : gmap string ModelInfo)
    (mi : ModelInfo) :
  properties (GenerateResponseBody models mi)
  = fst (bodyLoop models (fun f => String.eqb (JSONName f) "-")
           (Fields mi) (∅, [])).
Proof.
  unfold GenerateResponseBody, bodyLoop. simpl.
  generalize (∅ : gmap string Schema) at 1 2. generalize (@nil string).
  induction (Fields mi) as [|f fs IH]; intros req props; [reflexivity|].
  simpl. destruct (String.eqb (JSONName f) "-"); [apply IH|].
  simpl. apply IH.
Qed.

(** The text of the field loop of [GenerateRequestStruct]. *)
Lemma writeRequestField_loop (fs : list FieldInfo) (builder : string) :
  fold_left (writeRequestField true) fs builder
  = builder +:+ linesOf (List.filter keptInCreateStruct fs).
Proof.
  revert builder. induction fs as [|f fs IH]; intros builder; simpl.
  - symmetry. apply append_empty_r.
  - rewrite IH. unfold writeRequestField, keptInCreateStruct. simpl.
    destruct (IsID f && String.eqb (Name f) "ID"); simpl; [reflexivity|].
    apply append_assoc.
Qed.

(** C5, as amended. For a model whose field [ID], of unsigned-integer
    kind, is serialized under an external name [j] other than "-": the
    analysis keeps the field, flagged as identifier, with an integer schema;
    no property of the create request schema is written for it, a property
    under [j] there is the one of a field that is no identifier and shares
    the name, and with no such field the schema has neither a property nor
    a required entry [j]; the response schema has a property under [j]. *)
Theorem create_request_omits_ID_response_has_it
    (models : gmap string ModelInfo) (t : GoType) (resourceName : string)
    (f : StructField) (j : string) :
  In f (TypeFields t) ->
  sfName f = "ID" ->
  TypeKind (sfType f) = KUint ->
  serializedAs f j ->
  j <> "-" ->
  (exists fi, In fi (Fields (buildModelInfo t resourceName))
              /\ Name fi = "ID" /\ JSONName fi = j /\ IsID fi = true
              /\ getSwaggerType models (FType fi)
                 = SType "integer" (Some "int32"))
  /\ (forall v,
     properties (GenerateRequestBody models (buildModelInfo t resourceName)
                                     true) !! j = Some v ->
     exists f', In f' (Fields (buildModelInfo t resourceName))
                /\ JSONName f' = j /\ IsID f' = false
                /\ v = getSwaggerType models (FType f'))
  /\ ((forall f', In f' (Fields (buildModelInfo t resourceName)) ->
                  JSONName f' = j -> IsID f' = true) ->
      properties (GenerateRequestBody models (buildModelInfo t resourceName)
                                      true) !! j = None
      /\ ~ In j (requiredNames
                   (GenerateRequestBody models
                      (buildModelInfo t resourceName) true)))
  /\ is_Some (properties (GenerateResponseBody models
                            (buildModelInfo t resourceName)) !! j).
Proof.
  intros Hin Hname Hkind Hser Hj.
  set (mi := buildModelInfo t resourceName).
  set (fi := {| Name := sfName f; JSONName := j; FType := sfType f;
                IsID := String.eqb (sfName f) "ID"
                        || HasSuffix (sfName f) "ID";
                OmitEmpty := Contains (TagGet (sfTag f) "json")
                                      "omitempty" |}).
  assert (Hfi : In fi (Fields mi)).
  { unfold mi. destruct (buildModelInfo_spec t resourceName)
      as (_ & _ & _ & -> & _).
    apply in_flat_map. exists f. split; [exact Hin|].
    rewrite (analyzedField_serialized f j Hser). left. reflexivity. }
  split.
  { exists fi. split; [exact Hfi|]. unfold fi. simpl.
    rewrite Hname. repeat split.
    destruct (sfType f); simpl in Hkind; try discriminate.
    subst k. reflexivity. }
  assert (Hsource : forall v,
             properties (GenerateRequestBody models mi true) !! j = Some v ->
             exists f', In f' (Fields mi) /\ JSONName f' = j
                        /\ IsID f' = false
                        /\ v = getSwaggerType models (FType f')).
  { intros v Hv.
    rewrite GenerateRequestBody_loop, finishBody_properties in Hv.
    apply bodyLoop_property_source in Hv
      as [Hv | (f' & Hf' & Hskip & Hk & Hv)];
      [simpl in Hv; rewrite lookup_empty in Hv; discriminate|].
    apply orb_false_elim in Hskip as [_ Hid]. simpl in Hid.
    exists f'. auto. }
  split; [exact Hsource|]. split.
  - intros Honly. split.
    + destruct (properties (GenerateRequestBody models mi true) !! j)
        as [v|] eqn:E; [|reflexivity].
      destruct (Hsource v eq_refl) as (f' & Hf' & Hk & Hid & _).
      rewrite (Honly f' Hf' Hk) in Hid. discriminate.
    + rewrite GenerateRequestBody_loop, finishBody_requiredNames.
      intros Hreq.
      apply bodyLoop_required_source in Hreq
        as [[] | (f' & Hf' & Hskip & Hk)].
      apply orb_false_elim in Hskip as [_ Hid]. simpl in Hid.
      rewrite (Honly f' Hf' Hk) in Hid. discriminate.
  - rewrite GenerateResponseBody_loop.
    change j with (JSONName fi).
    apply bodyLoop_has_property; [exact Hfi|].
    simpl. apply String.eqb_neq. exact Hj.
Qed.

Lemma create_request_omits_ID_response_has_it_witness :
  (exists fi, In fi (Fields (buildModelInfo Post "post"))
              /\ Name fi = "ID" /\ JSONName fi = "id" /\ IsID fi = true
              /\ getSwaggerType (Models registered) (FType fi)
                 = SType "integer" (Some "int32"))
  /\ (forall v,
     properties (GenerateRequestBody (Models registered)
                   (buildModelInfo Post "post") true) !! "id" = Some v ->
     exists f', In f' (Fields (buildModelInfo Post "post"))
                /\ JSONName f' = "id" /\ IsID f' = false
                /\ v = getSwaggerType (Models registered) (FType f'))
  /\ ((forall f', In f' (Fields (buildModelInfo Post "post")) ->
                  JSONName f' = "id" -> IsID f' = true) ->
      properties (GenerateRequestBody (Models registered)
                    (buildModelInfo Post "post") true) !! "id" = None
      /\ ~ In "id" (requiredNames
                      (GenerateRequestBody (Models registered)
                         (buildModelInfo Post "post") true)))
  /\ is_Some (properties (GenerateResponseBody (Models registered)
                            (buildModelInfo Post "post")) !! "id").
Proof.
  apply (create_request_omits_ID_response_has_it (Models registered) Post
           "post" (field "ID" (TBasic KUint) "id") "id").
  - left. reflexivity.
  - reflexivity.
  - reflexivity.
  - repeat split; discriminate.
  - discriminate.
Defined.

(** C5 as stated fails on two models with a field [ID uint]. [Token]
    serializes it under "-" (tag "-,"): the analysis keeps the field, and
    the response schema skips it. [Plain] gives it no json tag: the analysis
    drops the field. Either response schema has the property [name] only. *)
Lemma response_schema_can_lack_ID :
  map Name (Fields (buildModelInfo Token "")) = ["ID"; "Name"]
  /\ map JSONName (Fields (buildModelInfo Token "")) = ["-"; "name"]
  /\ properties (GenerateResponseBody ∅ (buildModelInfo Token ""))
     = {[ "name" := SType "string" None ]}
  /\ map Name (Fields (buildModelInfo Plain "")) = ["Name"]
  /\ properties (GenerateResponseBody ∅ (buildModelInfo Plain ""))
     = {[ "name" := SType "string" None ]}.
Proof. repeat split; vm_compute; reflexivity. Qed.

(** C9. The create request body of the schema generator has a property,
    and a required entry, only for fields whose [IsID] flag is not set; the
    analysis sets the flag on the field called [ID] and on every field whose
    name ends in [ID]. The create request struct of the analyzer is the
    header, the lines of all fields but a flagged field called [ID], and the
    closing brace: a flagged field of another name, such as [UserID], keeps
    its line. *)
Theorem create_body_skips_flagged_struct_skips_ID_only
    (models : gmap string ModelInfo) (mi : ModelInfo) :
  (forall k v,
     properties (GenerateRequestBody models mi true) !! k = Some v ->
     exists f, In f (Fields mi) /\ IsID f = false /\ JSONName f = k
               /\ v = getSwaggerType models (FType f))
  /\ (forall k,
        In k (requiredNames (GenerateRequestBody models mi true)) ->
        exists f, In f (Fields mi) /\ IsID f = false /\ JSONName f = k)
  /\ (forall (t : GoType) (resourceName : string) (fi : FieldInfo),
        In fi (Fields (buildModelInfo t resourceName)) ->
        (IsID fi = true <-> Name fi = "ID" \/ endsIn (Name fi) "ID"))
  /\ GenerateRequestStruct mi true
     = (("type " +:+ (TypeName (MType mi) +:+ "CreateRequest")
         +:+ " struct {" +:+ String "010" "")
        +:+ linesOf (List.filter keptInCreateStruct (Fields mi)))
       +:+ "}" +:+ String "010" ""
  /\ (forall f, In f (Fields mi) -> Name f <> "ID" ->
                In f (List.filter keptInCreateStruct (Fields mi))).
Proof.
  split; [|split; [|split; [|split]]].
  - intros k v Hv.
    rewrite GenerateRequestBody_loop, finishBody_properties in Hv.
    apply bodyLoop_property_source in Hv
      as [Hv | (f & Hf & Hskip & Hk & Hv)];
      [simpl in Hv; rewrite lookup_empty in Hv; discriminate|].
    apply orb_false_elim in Hskip as [_ Hid]. simpl in Hid.
    exists f. auto.
  - intros k Hk.
    rewrite GenerateRequestBody_loop, finishBody_requiredNames in Hk.
    apply bodyLoop_required_source in Hk as [[] | (f & Hf & Hskip & Hk)].
    apply orb_false_elim in Hskip as [_ Hid]. simpl in Hid.
    exists f. auto.
  - intros t resourceName fi Hfi.
    destruct (buildModelInfo_spec t resourceName) as (_ & _ & _ & HF & _).
    rewrite HF in Hfi. apply in_flat_map in Hfi as (f & _ & Hfi).
    apply analyzedField_inv in Hfi as (-> & _ & -> & _).
    rewrite orb_true_iff, String.eqb_eq, HasSuffix_endsIn. reflexivity.
  - unfold GenerateRequestStruct. rewrite writeRequestField_loop.
    reflexivity.
  - intros f Hf Hne. apply List.filter_In. split; [exact Hf|].
    unfold keptInCreateStruct. apply String.eqb_neq in Hne. rewrite Hne.
    now rewrite andb_false_r.
Qed.

(** On [Post]: the schema body keeps [title] and [user], the struct keeps
    the line of [UserID] as well. *)
Example create_request_of_Post :
  dom (properties (GenerateRequestBody (Models registered) postInfo true))
  = ({[ "title"; "user" ]} : gset string)
  /\ map Name (List.filter keptInCreateStruct (Fields postInfo))
     = ["UserID"; "Title"; "User"].
Proof. split; vm_compute; reflexivity. Qed.

End SchemaFacts.

(** * Further properties of the code *)

(** ** Naming engine *)

Module NamingShape.
Import GoStrings Naming Vocabulary StringFacts NamingFacts.

Lemma snakeLoop_length (i : nat) (s : string) :
  String.length (snakeLoop (S i) s)
  = String.length s + countChars IsUpper s.
Proof.
  revert i. induction s as [|r s IH]; intros i; simpl; [reflexivity|].
  destruct (IsUpper r); simpl; rewrite IH; lia.
Qed.

(** X1. The snake case of an ASCII name holds no upper-case letter, and
    is longer than the name by one underscore for each upper-case letter
    after the first character: every capital but a leading one gets its
    own underscore, also inside a run of capitals. *)
Theorem toSnakeCase_shape_on_ASCII (s : string) :
  isASCII s = true ->
  allChars notUpper (toSnakeCase s) = true
  /\ String.length (toSnakeCase s)
     = String.length s + countChars IsUpper (tailOf s).
Proof.
  intros _. split; [apply snakeLoop_notUpper|].
  unfold toSnakeCase. destruct s as [|r s]; [reflexivity|]. simpl.
  destruct (IsUpper r); simpl; rewrite snakeLoop_length; reflexivity.
Qed.

Lemma toSnakeCase_shape_on_ASCII_witness :
  isASCII "HTTPServer" = true
  /\ toSnakeCase "HTTPServer" = "h_t_t_p_server"
  /\ allChars notUpper (toSnakeCase "HTTPServer") = true
  /\ String.length (toSnakeCase "HTTPServer")
     = String.length "HTTPServer" + countChars IsUpper (tailOf "HTTPServer").
Proof.
  split; [reflexivity|]. split; [reflexivity|].
  apply (toSnakeCase_shape_on_ASCII "HTTPServer"). reflexivity.
Defined.





(** The last character of a string decides about a one-character suffix. *)
Lemma append_last_inj (p q : string) (a b : ascii) :
  p +:+ String a "" = q +:+ String b "" -> a = b.
Proof.
  revert q. induction p as [|x p IH]; intros [|y q] H;
    rewrite ?append_nil, ?append_cons in H.
  - congruence.
  - injection H as _ H. destruct q; discriminate H.
  - injection H as _ H. destruct p; discriminate H.
  - injection H as _ H. apply (IH q H).
Qed.

Lemma endsIn_s_not_y (w : string) : endsIn w "s" -> ~ endsIn w "y".
Proof.
  intros [p ->] [q H]. apply append_last_inj in H. discriminate H.
Qed.

Lemma pluralize_rule_table_cases (w : string) :
  (exists stem, w = stem +:+ "y" /\ pluralize w = stem +:+ "ies")
  \/ pluralize w = w +:+ "es"
  \/ pluralize w = w +:+ "s".
Proof.
  unfold pluralize. destruct (HasSuffix w "y") eqn:Hy.
  - left. apply HasSuffix_endsIn in Hy as [stem ->]. exists stem.
    split; [reflexivity|]. now rewrite TrimSuffix_append.
  - right. destruct (_ || _); auto.
Qed.

Lemma pluralize_endsIn_s (w : string) : endsIn (pluralize w) "s".
Proof.
  destruct (pluralize_rule_table_cases w) as [(stem & _ & ->) | [-> | ->]].
  - exists (stem +:+ "ie"). now rewrite append_assoc.
  - exists (w +:+ "e"). now rewrite append_assoc.
  - exists w. reflexivity.
Qed.

(** X3. A plural always ends in s, so the plural of a plural is the plural
    followed by es: [pluralize] is not idempotent, and a resource name that
    is given in the plural is pluralized once more. *)
Theorem pluralize_of_plural (w : string) :
  endsIn (pluralize w) "s"
  /\ pluralize (pluralize w) = pluralize w +:+ "es".
Proof.
  split; [apply pluralize_endsIn_s|].
  pose proof (pluralize_endsIn_s w) as Hs.
  unfold pluralize at 1.
  rewrite (proj2 (HasSuffix_not_endsIn _ "y") (endsIn_s_not_y _ Hs)).
  rewrite (proj2 (HasSuffix_endsIn _ "s") Hs). reflexivity.
Qed.

End NamingShape.

(** ** Model analysis *)

Module AnalysisShape.
Import GoStrings Naming Reflect Apigen Vocabulary StringFacts AnalysisFacts.

Lemma analyzedField_cases (f : StructField) :
  analyzedField f
  = if hasJSONName f
    then [{| Name := sfName f; JSONName := jsonNameOf f; FType := sfType f;
             IsID := String.eqb (sfName f) "ID" || HasSuffix (sfName f) "ID";
             OmitEmpty := Contains (TagGet (sfTag f) "json") "omitempty" |}]
    else [].
Proof.
  unfold analyzedField, processField, hasJSONName, jsonNameOf.
  destruct (_ || _); simpl; [reflexivity|].
  repeat match goal with |- context [if ?c then _ else _] => destruct c end;
    reflexivity.
Qed.

Lemma analyzedKeys_unserialized (f : StructField) :
  hasJSONName f = false -> analyzedKeys f = [].
Proof.
  unfold analyzedKeys, processField, hasJSONName. intros H.
  apply negb_false_iff in H. rewrite H. reflexivity.
Qed.

(** The two rules ask for different kinds, so they never meet on a field. *)
Lemma analyzedKeys_at_most_one (f : StructField) :
  length (analyzedKeys f) <= length (analyzedField f)
  /\ length (analyzedKeys f) <= 1.
Proof.
  rewrite analyzedField_cases.
  destruct (hasJSONName f) eqn:Hj;
    [|rewrite (analyzedKeys_unserialized f Hj); simpl; lia].
  unfold analyzedKeys, processField, hasJSONName in *.
  apply negb_true_iff in Hj. rewrite Hj.
  destruct (TypeKind (sfType f)); simpl;
    rewrite ?andb_false_r, ?andb_true_r;
    repeat match goal with |- context [if ?c then _ else _] => destruct c end;
    simpl; lia.
Qed.

Lemma flat_map_length_le {A B C : Type} (f : A -> list B) (g : A -> list C)
    (l : list A) :
  (forall x, length (f x) <= length (g x)) ->
  length (flat_map f l) <= length (flat_map g l).
Proof.
  intros H. induction l as [|x l IH]; simpl; [lia|].
  rewrite !length_app. specialize (H x). lia.
Qed.

(** X4. The fields of a model are the struct fields with a json tag other
    than the empty one and "-", in declaration order, each under its own
    name, its type, and its tag up to the first comma; a field without such
    a tag is not part of the metadata. *)
Theorem Fields_are_the_tagged_fields (t : GoType) (resourceName : string) :
  map Name (Fields (buildModelInfo t resourceName))
  = map sfName (List.filter hasJSONName (TypeFields t))
  /\ map JSONName (Fields (buildModelInfo t resourceName))
     = map jsonNameOf (List.filter hasJSONName (TypeFields t))
  /\ map FType (Fields (buildModelInfo t resourceName))
     = map sfType (List.filter hasJSONName (TypeFields t)).
Proof.
  destruct (buildModelInfo_spec t resourceName) as (_ & _ & _ & -> & _).
  induction (TypeFields t) as [|f fs (IH1 & IH2 & IH3)]; simpl; [auto|].
  rewrite !map_app, IH1, IH2, IH3, analyzedField_cases.
  destruct (hasJSONName f); simpl; auto.
Qed.

(** X5. Every foreign key of a model belongs to one of its fields, and a
    field gives at most one: a key without relationship column comes from a
    field of struct kind and names its type, a key with one comes from a
    field of kind uint whose name it strips of the suffix ID. There are
    never more keys than fields, and a field of type time.Time gives none. *)
Theorem foreign_keys_belong_to_fields (t : GoType) (resourceName : string) :
  length (ForeignKeys (buildModelInfo t resourceName))
  <= length (Fields (buildModelInfo t resourceName))
  /\ (forall fk, In fk (ForeignKeys (buildModelInfo t resourceName)) ->
        exists fi, In fi (Fields (buildModelInfo t resourceName))
          /\ Name fi = FieldName fk
          /\ ((RelationshipID fk = "" /\ TypeKind (FType fi) = KStruct
               /\ RelatedModel fk = TypeName (FType fi))
              \/ (RelationshipID fk = Name fi /\ TypeKind (FType fi) = KUint
                  /\ RelatedModel fk = TrimSuffix (Name fi) "ID")))
  /\ (forall f fields, sfType f = TStruct "time" "Time" fields ->
                       analyzedKeys f = []).
Proof.
  destruct (buildModelInfo_spec t resourceName) as (_ & _ & _ & -> & ->).
  split; [|split].
  - apply flat_map_length_le. intros f. apply analyzedKeys_at_most_one.
  - intros fk Hfk. apply in_flat_map in Hfk as (f & Hf & Hfk).
    assert (Hj : hasJSONName f = true).
    { destruct (hasJSONName f) eqn:E; [reflexivity|].
      rewrite (analyzedKeys_unserialized f E) in Hfk. destruct Hfk. }
    eexists. split.
    + apply in_flat_map. exists f. split; [exact Hf|].
      rewrite analyzedField_cases, Hj. left. reflexivity.
    + simpl. destruct (analyzedKeys_rules f fk Hfk) as [[-> Hk] | [-> Hk]];
        simpl; auto.
  - intros f fields Hty. unfold analyzedKeys, processField. rewrite Hty.
    destruct (_ || _); [reflexivity|].
    simpl. rewrite andb_false_r. reflexivity.
Qed.

(** X6. A model that is no struct, and no pointer to a struct, is refused:
    [RegisterModel] returns the error "model must be a struct, got" with the
    kind it found and leaves the generator as it was, and [AnalyzeModel]
    returns the same error. A pointer is followed once only. *)
Theorem RegisterModel_refuses_non_struct
    (g : APIGenerator) (model : GoType) (resourceName : string) :
  TypeKind (modelTypeOf model) <> KStruct ->
  RegisterModel g model resourceName
  = (g, Some ("model must be a struct, got "
              +:+ KindString (TypeKind (modelTypeOf model))))
  /\ AnalyzeModel model
     = inr ("model must be a struct, got "
            +:+ KindString (TypeKind (modelTypeOf model))).
Proof.
  intros Hk. unfold RegisterModel, AnalyzeModel, modelTypeOf in *.
  destruct (Kind_eqb (TypeKind (if Kind_eqb (TypeKind model) KPtr
                                then PtrElem model else model)) KStruct)
    eqn:E; [|auto].
  exfalso. apply Hk.
  destruct (TypeKind (if Kind_eqb (TypeKind model) KPtr
                      then PtrElem model else model));
    try discriminate E; reflexivity.
Qed.

Lemma RegisterModel_refuses_non_struct_witness :
  RegisterModel registered (TPtr (TPtr User)) "user"
  = (registered, Some "model must be a struct, got ptr")
  /\ AnalyzeModel (TPtr (TPtr User))
     = inr "model must be a struct, got ptr".
Proof.
  apply (RegisterModel_refuses_non_struct registered (TPtr (TPtr User))
           "user").
  discriminate.
Defined.

(** X7. The registry is keyed by the bare type name: registering a second
    struct type of the same name, the same type again or one of another
    package, replaces the metadata of the first, and the registry is as if
    the second alone had been registered. *)
Theorem RegisterModel_replaces_same_name
    (g : APIGenerator) (t1 t2 : GoType) (name1 name2 : string) :
  TypeKind t1 = KStruct -> TypeKind t2 = KStruct ->
  TypeName t1 = TypeName t2 ->
  fst (RegisterModel (fst (RegisterModel g t1 name1)) t2 name2)
  = fst (RegisterModel g t2 name2)
  /\ Models (fst (RegisterModel g t2 name2)) !! TypeName t1
     = Some (buildModelInfo t2 name2).
Proof.
  intros H1 H2 Hn. unfold RegisterModel.
  rewrite H1, H2. simpl. rewrite H1, H2. simpl.
  rewrite Hn, insert_insert_eq. split; [reflexivity|].
  apply lookup_insert_eq.
Qed.

Lemma RegisterModel_replaces_same_name_witness :
  fst (RegisterModel (fst (RegisterModel New User "user"))
                     (TStruct "admin" "User" []) "account")
  = fst (RegisterModel New (TStruct "admin" "User" []) "account")
  /\ Models (fst (RegisterModel New (TStruct "admin" "User" []) "account"))
       !! TypeName User
     = Some (buildModelInfo (TStruct "admin" "User" []) "account").
Proof.
  apply (RegisterModel_replaces_same_name New User
           (TStruct "admin" "User" []) "user" "account");
    reflexivity.
Defined.

Lemma generateModelAPI_Models (g : APIGenerator) (mi : ModelInfo) :
  Models (after (generateModelAPI g mi)) = Models g.
Proof. apply RouteFacts.generateModelAPI_grows. Qed.

Lemma reachable_registry (g : APIGenerator) (key : string)
    (mi : ModelInfo) :
  Reachable g ->
  Models g !! key = Some mi ->
  key = TypeName (MType mi)
  /\ TypeKind (MType mi) = KStruct
  /\ (exists resourceName, mi = buildModelInfo (MType mi) resourceName)
  /\ PluralName mi = pluralize (ResourceName mi).
Proof.
  intros Hr. revert key mi.
  induction Hr as [|g model rn Hr IH|g k0 mi0 Hr IH Hk0]; intros key mi Hm.
  - unfold New in Hm. simpl in Hm. rewrite lookup_empty in Hm. discriminate.
  - unfold RegisterModel in Hm.
    destruct (Kind_eqb (TypeKind (if Kind_eqb (TypeKind model) KPtr
                                  then PtrElem model else model)) KStruct)
      eqn:E; simpl in Hm; [|apply IH, Hm].
    rewrite lookup_insert in Hm.
    destruct (decide _) as [Heq | Hne]; [|apply IH, Hm].
    injection Hm as <-.
    destruct (buildModelInfo_spec
                (if Kind_eqb (TypeKind model) KPtr then PtrElem model
                 else model) rn) as (HT & _ & HP & _).
    rewrite HT. repeat split; auto.
    + destruct (TypeKind (if Kind_eqb (TypeKind model) KPtr
                          then PtrElem model else model));
        try discriminate E; reflexivity.
    + exists rn. reflexivity.
  - rewrite generateModelAPI_Models in Hm. apply IH, Hm.
Qed.

(** X8. In every generator a program can build, each entry of the registry
    is the analysis of a struct type and is stored under the name of that
    type; its plural name is the plural of its resource name. *)
Theorem registry_entries_are_analyses (g : APIGenerator) (key : string)
    (mi : ModelInfo) :
  Reachable g ->
  Models g !! key = Some mi ->
  key = TypeName (MType mi)
  /\ TypeKind (MType mi) = KStruct
  /\ (exists resourceName, mi = buildModelInfo (MType mi) resourceName)
  /\ PluralName mi = pluralize (ResourceName mi).
Proof. apply reachable_registry. Qed.

Lemma registry_entries_are_analyses_witness :
  "Post" = TypeName (MType postInfo)
  /\ TypeKind (MType postInfo) = KStruct
  /\ (exists resourceName,
        postInfo = buildModelInfo (MType postInfo) resourceName)
  /\ PluralName postInfo = pluralize (ResourceName postInfo).
Proof.
  apply (registry_entries_are_analyses registered "Post" postInfo).
  - unfold registered. apply reach_RegisterModel, reach_RegisterModel.
    apply reach_New.
  - vm_compute. reflexivity.
Defined.

Lemma SplitHead_no_separator (s : string) :
  allChars notComma (SplitHead s ",") = true.
Proof.
  induction s as [|c s IH]; simpl; [reflexivity|].
  destruct (Ascii.eqb c ",") eqn:E; simpl; [reflexivity|].
  unfold notComma at 1. rewrite E, IH. reflexivity.
Qed.

Lemma Contains_unfold (s substr : string) :
  Contains s substr
  = (HasPrefix s substr
     || match s with
        | EmptyString => false
        | String _ rest => Contains rest substr
        end).
Proof. destruct s; reflexivity. Qed.

Lemma prefix_append (b c : string) : String.prefix b (b +:+ c) = true.
Proof.
  induction b as [|x b IH]; rewrite ?append_nil, ?append_cons; simpl.
  - destruct c; reflexivity.
  - destruct (ascii_dec x x); [exact IH | congruence].
Qed.

Lemma Contains_append (a b c : string) :
  Contains (a +:+ b +:+ c) b = true.
Proof.
  induction a as [|x a IH]; rewrite ?append_nil, ?append_cons;
    rewrite Contains_unfold.
  - unfold HasPrefix. now rewrite prefix_append.
  - rewrite IH. apply orb_true_r.
Qed.

(** X9. The external name of a field is its json tag up to the first
    comma, so it holds no comma. The omit-empty mark is set when the tag
    holds the text omitempty at any place, the name part included: a field
    whose json name contains omitempty counts as optional. *)
Theorem external_name_and_omitempty (t : GoType) (resourceName : string) :
  (forall fi, In fi (Fields (buildModelInfo t resourceName)) ->
              allChars notComma (JSONName fi) = true)
  /\ (forall f before after,
        In f (TypeFields t) ->
        hasJSONName f = true ->
        TagGet (sfTag f) "json" = before +:+ "omitempty" +:+ after ->
        exists fi, In fi (Fields (buildModelInfo t resourceName))
                   /\ Name fi = sfName f /\ OmitEmpty fi = true).
Proof.
  destruct (buildModelInfo_spec t resourceName) as (_ & _ & _ & -> & _).
  split.
  - intros fi Hfi. apply in_flat_map in Hfi as (f & _ & Hfi).
    rewrite analyzedField_cases in Hfi.
    destruct (hasJSONName f); [|destruct Hfi].
    destruct Hfi as [<- | []]. apply SplitHead_no_separator.
  - intros f before after Hf Hj Htag. eexists. split.
    + apply in_flat_map. exists f. split; [exact Hf|].
      rewrite analyzedField_cases, Hj. left. reflexivity.
    + simpl. split; [reflexivity|]. rewrite Htag. apply Contains_append.
Qed.

End AnalysisShape.

(** ** Route synthesis over a registry *)

Module RouteInvariants.
Import GoStrings Naming Reflect Apigen Handlers Vocabulary StringFacts.
Import AnalysisFacts RouteFacts AnalysisShape.

Lemma RegisterModel_routes (g : APIGenerator) (model : GoType)
    (resourceName : string) :
  Router (fst (RegisterModel g model resourceName)) = Router g
  /\ RegisteredPaths (fst (RegisterModel g model resourceName))
     = RegisteredPaths g.
Proof. unfold RegisterModel. destruct (negb _); auto. Qed.

(** One foreign key keeps the relationship paths distinct and registered,
    and the registered paths bound, whether its binding is skipped, made or
    refused. *)
Lemma relationStep_keeps_consistent (mi : ModelInfo) (g : APIGenerator)
    (fk : ForeignKeyInfo) :
  routesConsistent g /\ registeredAreBound g ->
  routesConsistent (after (relationStep mi g fk))
  /\ registeredAreBound (after (relationStep mi g fk)).
Proof.
  intros [[Hnd Hreg] Hbound].
  destruct (relationStep_cases mi g fk)
    as [[_ ->] | (_ & Hp & [[_ ->] | [_ ->]])]; simpl;
    try (split; [split|]; assumption).
  unfold routesConsistent, registeredAreBound. cbn [Router RegisteredPaths].
  rewrite relationBindings_app.
  change (relationBindings
            [mkBinding "GET" (relatedPathOf mi fk) (relatedHandler mi fk)])
    with [mkBinding "GET" (relatedPathOf mi fk) (relatedHandler mi fk)].
  split; [split|].
  - rewrite map_app. apply List.NoDup_app; [exact Hnd | |].
    + simpl. constructor; [intros [] | constructor].
    + intros p Hold [<- | []].
      apply in_map_iff in Hold as (b & Hb & Hin).
      simpl in Hb. rewrite <- Hb, (Hreg b Hin) in Hp. discriminate.
  - intros b Hb. rewrite pathRegistered_insert.
    destruct (decide _); [reflexivity|].
    apply in_app_or in Hb as [Hb | [<- | []]]; [apply Hreg, Hb|].
    simpl in *. congruence.
  - intros p Hreg'. rewrite pathRegistered_insert in Hreg'.
    destruct (decide (relatedPathOf mi fk = p)) as [<- | _].
    + eexists. split; [apply in_or_app; right; left; reflexivity|].
      reflexivity.
    + destruct (Hbound p Hreg') as (b & Hb & <-).
      exists b. split; [apply in_or_app; left; exact Hb | reflexivity].
Qed.

Lemma generateModelAPI_keeps_consistent (g : APIGenerator) (mi : ModelInfo) :
  routesConsistent g /\ registeredAreBound g ->
  routesConsistent (after (generateModelAPI g mi))
  /\ registeredAreBound (after (generateModelAPI g mi)).
Proof.
  intros H. unfold generateModelAPI.
  apply (next_after
           (fun g => routesConsistent g /\ registeredAreBound g)).
  - unfold routesConsistent, registeredAreBound.
    destruct (bindCRUD_keeps g mi) as [-> ->]. exact H.
  - intros g1 H1.
    apply (each_after
             (fun g => routesConsistent g /\ registeredAreBound g));
      [exact H1|].
    intros g2 fk _. apply relationStep_keeps_consistent.
Qed.

Lemma reachable_consistent (g : APIGenerator) :
  Reachable g -> routesConsistent g /\ registeredAreBound g.
Proof.
  induction 1 as [|g model rn Hr IH|g k mi Hr IH Hk].
  - split; [split|].
    + constructor.
    + intros b [].
    + intros p Hp. unfold pathRegistered, New in Hp. simpl in Hp.
      rewrite lookup_empty in Hp. discriminate.
  - unfold routesConsistent, registeredAreBound.
    destruct (RegisterModel_routes g model rn) as [-> ->]. exact IH.
  - apply generateModelAPI_keeps_consistent, IH.
Qed.

(** X10. In every generator a program can build, no relationship path is
    bound twice, across all models, and the registered paths are exactly
    the paths of the relationship bindings of the router. *)
Theorem relationship_paths_bound_once (g : APIGenerator) :
  Reachable g ->
  routesConsistent g
  /\ (forall p, pathRegistered (RegisteredPaths g) p = true ->
                exists b, In b (relationBindings (Router g)) /\ Path b = p).
Proof. apply reachable_consistent. Qed.

Lemma relationship_paths_bound_once_witness :
  routesConsistent (after (generateModelAPI registered postInfo))
  /\ (forall p,
        pathRegistered
          (RegisteredPaths (after (generateModelAPI registered postInfo)))
          p = true ->
        exists b,
          In b (relationBindings
                  (Router (after (generateModelAPI registered postInfo))))
          /\ Path b = p).
Proof.
  apply (relationship_paths_bound_once
           (after (generateModelAPI registered postInfo))).
  apply (reach_generateModelAPI registered "Post" postInfo).
  - unfold registered. apply reach_RegisterModel, reach_RegisterModel.
    apply reach_New.
  - vm_compute. reflexivity.
Defined.

(** A walk that returns has bound the five routes of each model it met and
    registered the paths of their foreign keys that name a model. *)
Lemma GenerateAPIIn_serves (order : list ModelInfo) (g g' : APIGenerator)
    (mi : ModelInfo) :
  GenerateAPIIn g order = Returns g' ->
  In mi order ->
  (forall b, In b (crudBindings mi) -> In b (Router g'))
  /\ (forall fk, In fk (ForeignKeys mi) -> namesModel fk = true ->
        pathRegistered (RegisteredPaths g') (relatedPathOf mi fk) = true).
Proof.
  unfold GenerateAPIIn.
  revert g. induction order as [|mi0 order IH]; intros g Hret Hin;
    [destruct Hin|].
  apply each_Returns_cons in Hret as (g1 & Hstep & Hret).
  destruct Hin as [-> | Hin]; [|apply (IH g1 Hret Hin)].
  pose proof (ExampleFacts.GenerateAPIIn_grows order g1) as Hgrows.
  unfold GenerateAPIIn in Hgrows. rewrite Hret in Hgrows.
  destruct Hgrows as (_ & (added & Ha) & Hp). simpl in Ha, Hp.
  apply generateModelAPI_Returns in Hstep. subst g1.
  split.
  - intros b Hb. rewrite Ha. cbn [Router].
    apply in_or_app. left. apply in_or_app. right.
    apply in_or_app. left. exact Hb.
  - intros fk Hfk Hn. apply Hp. simpl.
    apply pathsAfter_covers; assumption.
Qed.

Lemma GenerateAPIIn_Reachable (order : list ModelInfo) (g : APIGenerator) :
  Reachable g ->
  (forall mi, In mi order -> exists key, Models g !! key = Some mi) ->
  Reachable (after (GenerateAPIIn g order)).
Proof.
  intros Hr Hm. unfold GenerateAPIIn.
  apply (each_after
           (fun g1 => Reachable g1 /\ Models g1 = Models g));
    [split; [exact Hr | reflexivity]|].
  intros g1 mi Hin [Hr1 Hm1]. split.
  - destruct (Hm mi Hin) as (key & Hkey).
    apply (reach_generateModelAPI g1 key mi Hr1). rewrite Hm1. exact Hkey.
  - rewrite generateModelAPI_Models. exact Hm1.
Qed.

Lemma GenerateAPI_order (g : APIGenerator) (c : Call) :
  GenerateAPI g c ->
  exists order,
    c = GenerateAPIIn g order
    /\ forall mi, In mi order <-> exists key, Models g !! key = Some mi.
Proof.
  intros (order & Hperm & ->). exists order. split; [reflexivity|].
  intros mi. split.
  - intros Hin. apply (Permutation_in _ Hperm) in Hin.
    apply in_map_iff in Hin as ([key mi'] & <- & Hin).
    exists key. apply elem_of_map_to_list, list_elem_of_In, Hin.
  - intros (key & Hkey).
    apply (Permutation_in _ (Permutation_sym Hperm)).
    apply in_map_iff. exists (key, mi). split; [reflexivity|].
    apply list_elem_of_In, elem_of_map_to_list, Hkey.
Qed.

(** X11. After a [GenerateAPI] that returns, on a generator a program has
    built, whatever the order in which the registry is walked, every
    registered model has its five routes in the router, and every
    relationship path of a foreign key that names a model is bound to a
    relationship handler: that of the first foreign key, of any model, that
    claimed the path. *)
Theorem GenerateAPI_that_returns_serves_every_model
    (g : APIGenerator) (c : Call) (key : string) (mi : ModelInfo) :
  Reachable g ->
  GenerateAPI g c ->
  panics c = false ->
  Models g !! key = Some mi ->
  (forall b, In b (crudBindings mi) -> In b (Router (after c)))
  /\ (forall fk, In fk (ForeignKeys mi) -> namesModel fk = true ->
        exists b, In b (Router (after c)) /\ isRelated b = true
                  /\ Path b = relatedPathOf mi fk).
Proof.
  intros Hr Hgen Hret Hkey.
  destruct (GenerateAPI_order g c Hgen) as (order & -> & Horder).
  assert (Hin : In mi order) by (apply Horder; eauto).
  assert (Hr' : Reachable (after (GenerateAPIIn g order))).
  { apply GenerateAPIIn_Reachable; [exact Hr|]. intros mi'. apply Horder. }
  destruct (GenerateAPIIn g order) as [g'|g'] eqn:E; [|discriminate Hret].
  destruct (GenerateAPIIn_serves order g g' mi E Hin) as [Hcrud Hrel].
  simpl in *. split; [exact Hcrud|].
  intros fk Hfk Hn.
  destruct (reachable_consistent _ Hr') as [_ Hbound].
  destruct (Hbound _ (Hrel fk Hfk Hn)) as (b & Hb & Hp).
  apply List.filter_In in Hb as [Hb Hrelated]. eauto.
Qed.

Lemma registered_run :
  GenerateAPI registered (GenerateAPIIn registered [userInfo; postInfo]).
Proof.
  exists [userInfo; postInfo]. split; [|reflexivity].
  assert (Hl : map snd (map_to_list (Models registered))
               = [userInfo; postInfo]
               \/ map snd (map_to_list (Models registered))
                  = [postInfo; userInfo])
    by (vm_compute; auto).
  destruct Hl as [-> | ->]; [apply Permutation_refl | apply perm_swap].
Qed.

Lemma registered_Reachable : Reachable registered.
Proof.
  unfold registered. apply reach_RegisterModel, reach_RegisterModel.
  apply reach_New.
Qed.

Lemma GenerateAPI_that_returns_serves_every_model_witness :
  (forall b,
     In b (crudBindings postInfo) ->
     In b (Router (after (GenerateAPIIn registered [userInfo; postInfo]))))
  /\ (forall fk, In fk (ForeignKeys postInfo) -> namesModel fk = true ->
        exists b,
          In b (Router (after (GenerateAPIIn registered
                                 [userInfo; postInfo])))
          /\ isRelated b = true /\ Path b = relatedPathOf postInfo fk).
Proof.
  apply (GenerateAPI_that_returns_serves_every_model registered
           (GenerateAPIIn registered [userInfo; postInfo]) "Post" postInfo).
  - exact registered_Reachable.
  - exact registered_run.
  - vm_compute. reflexivity.
  - vm_compute. reflexivity.
Defined.




End RouteInvariants.

(** ** Request handlers: errors and the order of calls *)

Module HandlerErrors.
Import GoStrings Naming Reflect Apigen Handlers Vocabulary.

Ltac run_handler :=
  unfold serve, runList, runGet, runCreate, runUpdate, runDelete, runRelated,
    requireID, findExisting, check, call, JSON, finish, mbind, Run_bind,
    andThen, ret;
  simpl.

(** X13. A request without path identifier is answered 400 "ID is
    required" by the get, update, delete and relationship handlers alike,
    before any call to the database or the body decoder. *)
Theorem empty_id_is_bad_request (g : APIGenerator) (h : HandlerFunc)
    (oracle : Oracle) :
  readsID h = true ->
  serve g h "" oracle
  = ([], Respond StatusBadRequest (ErrorBody "ID is required")).
Proof. destruct h; intros H; try discriminate H; reflexivity. Qed.

Lemma empty_id_is_bad_request_witness :
  serve registered (relatedHandler postInfo fkUserID) "" noRecords
  = ([], Respond StatusBadRequest (ErrorBody "ID is required")).
Proof.
  apply (empty_id_is_bad_request registered
           (relatedHandler postInfo fkUserID) noRecords).
  reflexivity.
Defined.

(** X14. On a model whose type has no field [ID], own or promoted, the
    get, update and delete handlers panic on every request that has a path
    identifier, before any call: [FieldByName] finds nothing and the kind of
    the missing field's type is asked for. *)
Theorem model_without_ID_panics (g : APIGenerator) (h : HandlerFunc)
    (mi : ModelInfo) (id : string) (oracle : Oracle) :
  itemModel h = Some mi ->
  FieldByName (MType mi) "ID" = None ->
  id <> "" ->
  serve g h id oracle = ([], Panic).
Proof.
  intros Hh Hf Hid. apply String.eqb_neq in Hid.
  destruct h; simpl in Hh; try discriminate Hh; injection Hh as ->;
    run_handler; rewrite Hid, Hf; reflexivity.
Qed.

Lemma model_without_ID_panics_witness :
  serve New (deleteHandler (buildModelInfo Tag "")) "7" allSucceed
  = ([], Panic).
Proof.
  apply (model_without_ID_panics New
           (deleteHandler (buildModelInfo Tag ""))
           (buildModelInfo Tag "") "7" allSucceed).
  - reflexivity.
  - vm_compute. reflexivity.
  - discriminate.
Defined.

(** X15. The handlers of the GET routes (list, get, relationship) only
    read: whatever the request and the answers of the database, they make
    no create, save or delete call and never decode a body. *)
Theorem read_handlers_never_write (g : APIGenerator) (h : HandlerFunc)
    (id : string) (oracle : Oracle) (op : Op) :
  isReadHandler h = true ->
  In op (fst (serve g h id oracle)) ->
  isWrite op = false /\ isBind op = false.
Proof.
  destruct h; intros Hh; try discriminate Hh; revert op; run_handler.
  - destruct (oracle _); simpl; intros op [<- | []]; auto.
  - destruct (String.eqb id ""); simpl; [intros op []|].
    destruct (FieldByName (MType modelInfo) "ID") as [idField|]; simpl;
      [|intros op []].
    destruct (Kind_eqb _ _); simpl; destruct (oracle _); simpl;
      intros op [<- | []]; auto.
  - destruct (String.eqb id ""); simpl; [intros op []|].
    destruct (oracle (DBFirst _ _)); simpl; [intros op [<- | []]; auto|].
    destruct (Models g !! RelatedModel fk); simpl;
      [|intros op [<- | []]; auto].
    destruct (negb _); simpl.
    + destruct (ParseUint id); simpl; [|intros op [<- | []]; auto].
      destruct (oracle _); simpl; intros op [<- | [<- | []]]; auto.
    + destruct (oracle _); simpl; intros op [<- | [<- | []]]; auto.
Qed.

Lemma read_handlers_never_write_witness :
  isWrite (DBFirst "Post" "7") = false /\ isBind (DBFirst "Post" "7") = false.
Proof.
  apply (read_handlers_never_write registered
           (relatedHandler postInfo fkUserID) "7" allSucceed
           (DBFirst "Post" "7")).
  - reflexivity.
  - vm_compute. left. reflexivity.
Defined.

(** X16. A body that does not decode is answered 400 with the decoder's
    message, and nothing is written: the create handler makes no other
    call, and the update handler, which decodes after its lookup has found
    the record, does not call [Save]. *)
Theorem undecodable_body_is_bad_request (g : APIGenerator) (mi : ModelInfo)
    (id : string) (idField : StructField) (oracle : Oracle) (e : Err) :
  oracle (ShouldBindJSON (TypeName (MType mi))) = Some e ->
  serve g (createHandler mi) id oracle
  = ([ShouldBindJSON (TypeName (MType mi))],
     Respond StatusBadRequest (ErrorBody (ErrorText e)))
  /\ (id <> "" ->
      FieldByName (MType mi) "ID" = Some idField ->
      oracle (lookupOf mi idField id) = None ->
      serve g (updateHandler mi) id oracle
      = ([lookupOf mi idField id; ShouldBindJSON (TypeName (MType mi))],
         Respond StatusBadRequest (ErrorBody (ErrorText e)))).
Proof.
  intros He. split.
  - run_handler. rewrite He. reflexivity.
  - intros Hid Hf Hl. apply String.eqb_neq in Hid. unfold lookupOf in *.
    run_handler. rewrite Hid, Hf. simpl.
    destruct (Kind_eqb _ _); simpl; rewrite Hl; simpl; rewrite He;
      reflexivity.
Qed.

Lemma undecodable_body_is_bad_request_witness :
  serve registered (createHandler postInfo) ""
        (fun op => if isBind op then Some (ErrOther "EOF") else None)
  = ([ShouldBindJSON "Post"], Respond StatusBadRequest (ErrorBody "EOF"))
  /\ ("7" <> "" ->
      FieldByName (MType postInfo) "ID"
      = Some (field "ID" (TBasic KUint) "id") ->
      (if isBind (lookupOf postInfo (field "ID" (TBasic KUint) "id") "7")
       then Some (ErrOther "EOF") else None) = None ->
      serve registered (updateHandler postInfo) "7"
            (fun op => if isBind op then Some (ErrOther "EOF") else None)
      = ([lookupOf postInfo (field "ID" (TBasic KUint) "id") "7";
          ShouldBindJSON "Post"],
         Respond StatusBadRequest (ErrorBody "EOF"))).
Proof.
  apply (undecodable_body_is_bad_request registered postInfo "7"
           (field "ID" (TBasic KUint) "id")
           (fun op => if isBind op then Some (ErrOther "EOF") else None)
           (ErrOther "EOF")).
  reflexivity.
Defined.

(** X17. When the lookup of the get, update or delete handler fails, the
    request ends after that one call: with 404 "Record not found" when the
    database reports no record, with 500 and the error's text otherwise. A
    model with a string [ID] is looked up by the column id, any other by
    primary key. *)
Theorem failed_lookup_ends_the_request (g : APIGenerator) (h : HandlerFunc)
    (mi : ModelInfo) (id : string) (idField : StructField) (oracle : Oracle)
    (e : Err) :
  itemModel h = Some mi ->
  id <> "" ->
  FieldByName (MType mi) "ID" = Some idField ->
  oracle (lookupOf mi idField id) = Some e ->
  serve g h id oracle
  = ([lookupOf mi idField id],
     match e with
     | ErrRecordNotFound =>
         Respond StatusNotFound (ErrorBody "Record not found")
     | ErrOther msg => Respond StatusInternalServerError (ErrorBody msg)
     end).
Proof.
  intros Hh Hid Hf Hl. apply String.eqb_neq in Hid. unfold lookupOf in *.
  destruct h; simpl in Hh; try discriminate Hh; injection Hh as ->;
    run_handler; rewrite Hid, Hf; simpl;
    destruct (Kind_eqb _ _); simpl; rewrite Hl; destruct e; reflexivity.
Qed.

Lemma failed_lookup_ends_the_request_witness :
  serve registered (deleteHandler postInfo) "7"
        (fun _ => Some (ErrOther "connection refused"))
  = ([DBFirst "Post" "7"],
     Respond StatusInternalServerError (ErrorBody "connection refused")).
Proof.
  apply (failed_lookup_ends_the_request registered (deleteHandler postInfo)
           postInfo "7" (field "ID" (TBasic KUint) "id")
           (fun _ => Some (ErrOther "connection refused"))
           (ErrOther "connection refused")).
  - reflexivity.
  - discriminate.
  - reflexivity.
  - reflexivity.
Defined.

(** X18. When every call succeeds, a request with a path identifier on a
    model with an [ID] field makes these calls, in this order: get, the
    lookup, answered 200 with the record; update, the lookup, the decoding
    of the body onto the record found, the save, answered 200; delete, the
    lookup and the delete, answered 204 without body. *)
Theorem successful_item_requests (g : APIGenerator) (h : HandlerFunc)
    (mi : ModelInfo) (id : string) (idField : StructField)
    (oracle : Oracle) :
  itemModel h = Some mi ->
  id <> "" ->
  FieldByName (MType mi) "ID" = Some idField ->
  (forall op, oracle op = None) ->
  serve g h id oracle
  = (lookupOf mi idField id :: fst (afterLookup h), snd (afterLookup h)).
Proof.
  intros Hh Hid Hf Ho. apply String.eqb_neq in Hid. unfold lookupOf.
  destruct h; simpl in Hh; try discriminate Hh; injection Hh as ->;
    run_handler; rewrite Hid, Hf; simpl;
    destruct (Kind_eqb _ _); simpl; rewrite !Ho; reflexivity.
Qed.

Lemma successful_item_requests_witness :
  serve registered (updateHandler postInfo) "7" allSucceed
  = ([DBFirst "Post" "7"; ShouldBindJSON "Post"; DBSave "Post"],
     Respond StatusOK (InstanceBody "Post")).
Proof.
  apply (successful_item_requests registered (updateHandler postInfo)
           postInfo "7" (field "ID" (TBasic KUint) "id") allSucceed).
  - reflexivity.
  - discriminate.
  - reflexivity.
  - reflexivity.
Defined.

(** X19. A relationship route whose related model was never registered is
    bound all the same, and answers at request time: once the parent is
    found, 500 "Related model ... not registered", without a query on the
    related collection. *)
Theorem unregistered_related_model_is_internal_error
    (g : APIGenerator) (mi : ModelInfo) (fk : ForeignKeyInfo) (id : string)
    (oracle : Oracle) :
  id <> "" ->
  oracle (DBFirst (TypeName (MType mi)) id) = None ->
  Models g !! RelatedModel fk = None ->
  serve g (relatedHandler mi fk) id oracle
  = ([DBFirst (TypeName (MType mi)) id],
     Respond StatusInternalServerError
       (ErrorBody ("Related model " +:+ RelatedModel fk
                   +:+ " not registered"))).
Proof.
  intros Hid Hp Hm. apply String.eqb_neq in Hid.
  run_handler. rewrite Hid. simpl. rewrite Hp, Hm. reflexivity.
Qed.

Lemma unregistered_related_model_is_internal_error_witness :
  serve New (relatedHandler postInfo fkUserID) "7" allSucceed
  = ([DBFirst "Post" "7"],
     Respond StatusInternalServerError
       (ErrorBody "Related model User not registered")).
Proof.
  apply (unregistered_related_model_is_internal_error New postInfo fkUserID
           "7" allSucceed).
  - discriminate.
  - reflexivity.
  - reflexivity.
Defined.

Lemma parseDigits_rejects (s : string) (acc : N) :
  allChars isDigit s = false -> parseDigits acc s = None.
Proof.
  revert acc. induction s as [|c s IH]; intros acc H; simpl in *;
    [discriminate|].
  destruct (isDigit c); [apply IH, H | reflexivity].
Qed.

(** X20. On a relationship route with an explicit column, when the lookup
    of the parent succeeds and the related model is registered, a non-empty
    path identifier that is no decimal number is answered 400 "Invalid ID
    format", after that one call: the identifier is parsed only once the
    parent is found and the related model resolved, and the related
    collection is not queried. *)
Theorem non_numeric_id_on_column_route (g : APIGenerator)
    (mi related : ModelInfo) (fk : ForeignKeyInfo) (id : string)
    (oracle : Oracle) :
  id <> "" ->
  allChars isDigit id = false ->
  RelationshipID fk <> "" ->
  Models g !! RelatedModel fk = Some related ->
  oracle (DBFirst (TypeName (MType mi)) id) = None ->
  serve g (relatedHandler mi fk) id oracle
  = ([DBFirst (TypeName (MType mi)) id],
     Respond StatusBadRequest (ErrorBody "Invalid ID format")).
Proof.
  intros Hid Hdigits Hcol Hm Hp.
  apply String.eqb_neq in Hid. apply String.eqb_neq in Hcol.
  run_handler. rewrite Hid. simpl. rewrite Hp, Hm, Hcol. simpl.
  unfold ParseUint. rewrite Hid, (parseDigits_rejects id 0 Hdigits).
  reflexivity.
Qed.

Lemma non_numeric_id_on_column_route_witness :
  serve registered (relatedHandler postInfo fkUserID) "abc" allSucceed
  = ([DBFirst "Post" "abc"],
     Respond StatusBadRequest (ErrorBody "Invalid ID format")).
Proof.
  apply (non_numeric_id_on_column_route registered postInfo userInfo fkUserID
           "abc" allSucceed).
  - discriminate.
  - reflexivity.
  - discriminate.
  - vm_compute. reflexivity.
  - reflexivity.
Defined.

(** X21. A write that fails is answered 500 with the error's text: the
    create after the body decoded, the save after lookup and decoding, the
    delete after the lookup. *)
Theorem failed_write_is_internal_error (g : APIGenerator) (mi : ModelInfo)
    (id : string) (idField : StructField) (oracle : Oracle) (e : Err) :
  (forall op, isWrite op = false -> oracle op = None) ->
  (forall op, isWrite op = true -> oracle op = Some e) ->
  serve g (createHandler mi) id oracle
  = ([ShouldBindJSON (TypeName (MType mi)); DBCreate (TypeName (MType mi))],
     Respond StatusInternalServerError (ErrorBody (ErrorText e)))
  /\ (id <> "" ->
      FieldByName (MType mi) "ID" = Some idField ->
      serve g (updateHandler mi) id oracle
      = ([lookupOf mi idField id; ShouldBindJSON (TypeName (MType mi));
          DBSave (TypeName (MType mi))],
         Respond StatusInternalServerError (ErrorBody (ErrorText e)))
      /\ serve g (deleteHandler mi) id oracle
         = ([lookupOf mi idField id; DBDelete (TypeName (MType mi))],
            Respond StatusInternalServerError (ErrorBody (ErrorText e)))).
Proof.
  intros Hr Hw. split.
  - run_handler. rewrite (Hr (ShouldBindJSON _) eq_refl). simpl.
    rewrite (Hw (DBCreate _) eq_refl). reflexivity.
  - intros Hid Hf. apply String.eqb_neq in Hid. unfold lookupOf.
    split; run_handler; rewrite Hid, Hf; simpl;
      destruct (Kind_eqb _ _); simpl;
      rewrite ?(Hr (DBFirst _ _) eq_refl), ?(Hr (DBWhereFirst _ _ _) eq_refl);
      simpl; rewrite ?(Hr (ShouldBindJSON _) eq_refl); simpl;
      rewrite ?(Hw (DBSave _) eq_refl), ?(Hw (DBDelete _) eq_refl);
      reflexivity.
Qed.

Lemma failed_write_is_internal_error_witness :
  serve registered (createHandler postInfo) "7"
    (fun op => if isWrite op then Some (ErrOther "disk full") else None)
  = ([ShouldBindJSON "Post"; DBCreate "Post"],
     Respond StatusInternalServerError (ErrorBody "disk full"))
  /\ ("7" <> "" ->
      FieldByName (MType postInfo) "ID"
      = Some (field "ID" (TBasic KUint) "id") ->
      serve registered (updateHandler postInfo) "7"
        (fun op => if isWrite op then Some (ErrOther "disk full") else None)
      = ([lookupOf postInfo (field "ID" (TBasic KUint) "id") "7";
          ShouldBindJSON "Post"; DBSave "Post"],
         Respond StatusInternalServerError (ErrorBody "disk full"))
      /\ serve registered (deleteHandler postInfo) "7"
           (fun op => if isWrite op then Some (ErrOther "disk full")
                      else None)
         = ([lookupOf postInfo (field "ID" (TBasic KUint) "id") "7";
             DBDelete "Post"],
            Respond StatusInternalServerError (ErrorBody "disk full"))).
Proof.
  apply (failed_write_is_internal_error registered postInfo "7"
           (field "ID" (TBasic KUint) "id")
           (fun op => if isWrite op then Some (ErrOther "disk full")
                      else None)
           (ErrOther "disk full")).
  - intros op H. rewrite H. reflexivity.
  - intros op H. rewrite H. reflexivity.
Defined.

End HandlerErrors.

(** ** Schema documents: what they hold *)

Module SchemaShape.
Import GoStrings Naming Reflect Apigen Analyzer Swagger Vocabulary.
Import StringFacts AnalysisFacts SchemaFacts AnalysisShape.

Lemma fold_left_ext {A B : Type} (f g : A -> B -> A) (l : list B) (a : A) :
  (forall x y, f x y = g x y) -> fold_left f l a = fold_left g l a.
Proof.
  intros H. revert a. induction l as [|y l IH]; intros a; simpl;
    [reflexivity|].
  rewrite H. apply IH.
Qed.

Lemma generateModelDefinition_loop (models : gmap string ModelInfo)
    (mi : ModelInfo) :
  generateModelDefinition models mi
  = finishBody
      (bodyLoop models (fun f => String.eqb (JSONName f) "-") (Fields mi)
                (∅, [])).
Proof. reflexivity. Qed.

(** X22. The update request body of a model is its model definition, and
    the response body has the properties of the definition and never a
    required list: the three documents differ in [required] only. *)
Theorem update_body_is_the_definition (models : gmap string ModelInfo)
    (mi : ModelInfo) :
  GenerateRequestBody models mi false = generateModelDefinition models mi
  /\ properties (GenerateResponseBody models mi)
     = properties (generateModelDefinition models mi)
  /\ required (GenerateResponseBody models mi) = None.
Proof.
  split; [|split; [|reflexivity]].
  - unfold GenerateRequestBody, generateModelDefinition. f_equal.
    apply fold_left_ext. intros acc f. simpl.
    now rewrite orb_false_r.
  - rewrite GenerateResponseBody_loop, generateModelDefinition_loop,
      finishBody_properties. reflexivity.
Qed.

Lemma bodyLoop_required (models : gmap string ModelInfo)
    (skip : FieldInfo -> bool) (fs : list FieldInfo)
    (acc : gmap string Schema * list string) :
  snd (bodyLoop models skip fs acc)
  = snd acc
    ++ map JSONName
         (List.filter (fun f => negb (skip f) && negb (OmitEmpty f)) fs).
Proof.
  revert acc. induction fs as [|f fs IH]; intros acc.
  - simpl. now rewrite app_nil_r.
  - rewrite bodyLoop_cons, IH. simpl.
    destruct (skip f); simpl; [reflexivity|].
    destruct acc as [props req]. simpl.
    destruct (OmitEmpty f); simpl; [reflexivity|].
    now rewrite <- app_assoc.
Qed.

(** X23. The required list of a request body holds the external names of
    the fields that are not skipped and not marked omit-empty, in
    declaration order and with repetitions; the key is left out exactly
    when there is no such field. *)
Theorem required_lists_the_mandatory_fields (models : gmap string ModelInfo)
    (mi : ModelInfo) (isCreate : bool) :
  requiredNames (GenerateRequestBody models mi isCreate)
  = map JSONName (List.filter (requiredInBody isCreate) (Fields mi))
  /\ (required (GenerateRequestBody models mi isCreate) = None
      <-> List.filter (requiredInBody isCreate) (Fields mi) = []).
Proof.
  assert (Hreq : snd (bodyLoop models (skippedInBody isCreate) (Fields mi)
                               (∅, []))
                 = map JSONName
                     (List.filter (requiredInBody isCreate) (Fields mi))).
  { rewrite bodyLoop_required. reflexivity. }
  change (GenerateRequestBody models mi isCreate)
    with (finishBody (bodyLoop models (skippedInBody isCreate) (Fields mi)
                               (∅, []))).
  split.
  - rewrite finishBody_requiredNames. exact Hreq.
  - destruct (bodyLoop models (skippedInBody isCreate) (Fields mi) (∅, []))
      as [props req]. simpl in *. subst req.
    destruct (List.filter (requiredInBody isCreate) (Fields mi)); simpl;
      split; intros H; congruence.
Qed.

(** X24. A struct type whose bare name is a key of the registry is
    documented as a reference to that definition, whatever its package and
    fields, and in a generator a program has built the reference resolves:
    the definitions have an entry of that name. The check comes before the
    one for time.Time, which is a date-time string only while no model
    called Time is registered. *)
Theorem registered_name_becomes_reference (g : APIGenerator)
    (pkg name : string) (fields : list StructField) (mi : ModelInfo) :
  Reachable g ->
  Models g !! name = Some mi ->
  getSwaggerType (Models g) (TStruct pkg name fields)
  = SRef ("#/definitions/" +:+ name)
  /\ is_Some (GenerateModelDefinitions (Models g) !! name)
  /\ (forall models timeFields,
        models !! "Time" = None ->
        getSwaggerType models (TStruct "time" "Time" timeFields)
        = SType "string" (Some "date-time")).
Proof.
  intros Hr Hm.
  destruct (reachable_registry g name mi Hr Hm) as (Hname & _).
  split; [|split].
  - simpl. rewrite Hm, <- Hname. reflexivity.
  - unfold GenerateModelDefinitions. rewrite lookup_fmap, Hm. simpl. eauto.
  - intros models timeFields Ht. simpl. rewrite Ht. reflexivity.
Qed.

Lemma registered_name_becomes_reference_witness :
  getSwaggerType (Models registered) (TStruct "time" "User" [])
  = SRef "#/definitions/User"
  /\ is_Some (GenerateModelDefinitions (Models registered) !! "User")
  /\ (forall models timeFields,
        models !! "Time" = None ->
        getSwaggerType models (TStruct "time" "Time" timeFields)
        = SType "string" (Some "date-time")).
Proof.
  apply (registered_name_becomes_reference registered "time" "User" []
           userInfo).
  - apply RouteInvariants.registered_Reachable.
  - vm_compute. reflexivity.
Defined.

Lemma writeUpdateField_loop (fs : list FieldInfo) (builder : string) :
  fold_left (writeRequestField false) fs builder = builder +:+ linesOf fs.
Proof.
  revert builder. induction fs as [|f fs IH]; intros builder; simpl.
  - symmetry. apply append_empty_r.
  - rewrite IH. unfold writeRequestField. simpl. apply append_assoc.
Qed.

Lemma writeResponseField_loop (fs : list FieldInfo) (builder : string) :
  fold_left (fun b f => b +:+ fieldLine f) fs builder
  = builder +:+ linesOf fs.
Proof.
  revert builder. induction fs as [|f fs IH]; intros builder; simpl.
  - symmetry. apply append_empty_r.
  - rewrite IH. apply append_assoc.
Qed.

(** X25. The update request struct and the response struct of a model are
    the same text but for the name: the header, one line per field of the
    metadata in declaration order, the field [ID] included, and the closing
    brace. *)
Theorem update_and_response_structs_keep_all_fields (mi : ModelInfo) :
  GenerateRequestStruct mi false
  = (structHeader (TypeName (MType mi) +:+ "UpdateRequest")
     +:+ linesOf (Fields mi)) +:+ "}" +:+ String "010" ""
  /\ GenerateResponseStruct mi
     = (structHeader (TypeName (MType mi) +:+ "Response")
        +:+ linesOf (Fields mi)) +:+ "}" +:+ String "010" "".
Proof.
  split.
  - unfold GenerateRequestStruct. rewrite writeUpdateField_loop.
    reflexivity.
  - unfold GenerateResponseStruct. rewrite writeResponseField_loop.
    reflexivity.
Qed.

(** X26. Every property of a generated schema (model definition, request
    body, response body) of an analysed struct type is the schema of one of
    its fields with a json tag other than the empty one and "-", under that
    field's external name: a field without such a tag appears in no
    schema, and no property is called "-". *)
Theorem properties_come_from_tagged_fields (models : gmap string ModelInfo)
    (t : GoType) (resourceName : string) (isCreate : bool) (k : string)
    (v : Schema) :
  properties (GenerateRequestBody models (buildModelInfo t resourceName)
                                  isCreate) !! k = Some v
  \/ properties (GenerateResponseBody models
                   (buildModelInfo t resourceName)) !! k = Some v
  \/ properties (generateModelDefinition models
                   (buildModelInfo t resourceName)) !! k = Some v ->
  k <> "-"
  /\ exists f, In f (TypeFields t) /\ hasJSONName f = true
               /\ jsonNameOf f = k
               /\ v = getSwaggerType models (sfType f).
Proof.
  assert (Hsrc : forall fi, In fi (Fields (buildModelInfo t resourceName)) ->
            exists f, In f (TypeFields t) /\ hasJSONName f = true
                      /\ jsonNameOf f = JSONName fi /\ sfType f = FType fi).
  { destruct (buildModelInfo_spec t resourceName) as (_ & _ & _ & -> & _).
    intros fi Hfi. apply in_flat_map in Hfi as (f & Hf & Hfi).
    rewrite analyzedField_cases in Hfi.
    destruct (hasJSONName f) eqn:Hj; [|destruct Hfi].
    destruct Hfi as [<- | []]. exists f. auto. }
  assert (Hloop : forall skip,
            (forall fi, skip fi = false -> JSONName fi <> "-") ->
            fst (bodyLoop models skip (Fields (buildModelInfo t resourceName))
                          (∅, [])) !! k = Some v ->
            k <> "-"
            /\ exists f, In f (TypeFields t) /\ hasJSONName f = true
                         /\ jsonNameOf f = k
                         /\ v = getSwaggerType models (sfType f)).
  { intros skip Hskip Hv.
    apply bodyLoop_property_source in Hv
      as [Hv | (fi & Hfi & Hs & <- & ->)];
      [simpl in Hv; rewrite lookup_empty in Hv; discriminate|].
    split; [apply Hskip, Hs|].
    destruct (Hsrc fi Hfi) as (f & Hf & Hj & Hn & Ht).
    exists f. rewrite Ht. auto. }
  intros [H | [H | H]].
  - rewrite GenerateRequestBody_loop, finishBody_properties in H.
    apply (Hloop _ ltac:(intros fi Hs; apply orb_false_elim in Hs as [Hs _];
                         apply String.eqb_neq, Hs) H).
  - rewrite GenerateResponseBody_loop in H.
    apply (Hloop _ ltac:(intros fi Hs; apply String.eqb_neq, Hs) H).
  - rewrite generateModelDefinition_loop, finishBody_properties in H.
    apply (Hloop _ ltac:(intros fi Hs; apply String.eqb_neq, Hs) H).
Qed.

Lemma properties_come_from_tagged_fields_witness :
  "user_id" <> "-"
  /\ exists f, In f (TypeFields Post) /\ hasJSONName f = true
               /\ jsonNameOf f = "user_id"
               /\ SType "integer" (Some "int32")
                  = getSwaggerType (Models registered) (sfType f).
Proof.
  apply (properties_come_from_tagged_fields (Models registered) Post "post"
           true "user_id" (SType "integer" (Some "int32"))).
  right. left. vm_compute. reflexivity.
Defined.

End SchemaShape.

(** ** Path documents and the route table *)

Module PathFacts.
Import GoStrings Naming Reflect Apigen Handlers Swagger Vocabulary.
Import StringFacts AnalysisFacts RouteFacts AnalysisShape RouteInvariants.

Lemma itemPath_colon (mi : ModelInfo) :
  basePathOf mi +:+ "/:id" = "/api/" +:+ PluralName mi +:+ "/" +:+ ":id".
Proof. unfold basePathOf. rewrite append_assoc. reflexivity. Qed.

Lemma relatedPath_colon (mi : ModelInfo) (fk : ForeignKeyInfo) :
  relatedPathOf mi fk
  = "/api/" +:+ PluralName mi +:+ "/" +:+ ":id" +:+ "/"
    +:+ toSnakeCase (RelatedModel fk).
Proof.
  unfold relatedPathOf, basePathOf. rewrite append_assoc. reflexivity.
Qed.

Lemma relatedPath_in_pathsWith (mi : ModelInfo) (fk : ForeignKeyInfo) :
  In fk (ForeignKeys mi) -> namesModel fk = true ->
  In (relatedPathOf mi fk) (pathsWith ":id" mi).
Proof.
  intros Hfk Hn. right. right. rewrite relatedPath_colon.
  apply in_map_iff. exists fk. split; [reflexivity|].
  apply List.filter_In. auto.
Qed.

(** The paths of the router after one run that returns, for a generator a
    program built. *)
Lemma router_paths_step (g g' : APIGenerator) (key : string)
    (mi : ModelInfo) (p : string) :
  Reachable g -> Models g !! key = Some mi ->
  generateModelAPI g mi = Returns g' ->
  (exists b, In b (Router g') /\ Path b = p)
  <-> (exists b, In b (Router g) /\ Path b = p) \/ In p (pathsWith ":id" mi).
Proof.
  intros Hr Hkey Hret.
  pose proof (reach_generateModelAPI g key mi Hr Hkey) as Hr'.
  rewrite Hret in Hr'. simpl in Hr'.
  apply generateModelAPI_Returns in Hret. subst g'.
  split.
  - intros (b & Hb & <-). cbn [Router] in Hb.
    apply in_app_or in Hb as [Hb | Hb]; [left; eauto|]. right.
    apply in_app_or in Hb as [Hb | Hb].
    + simpl in Hb.
      destruct Hb as [<- | [<- | [<- | [<- | [<- | []]]]]]; simpl;
        rewrite ?itemPath_colon; auto.
    + apply newRelations_fresh in Hb as (_ & fk & Hfk & Hn & ->).
      apply relatedPath_in_pathsWith; assumption.
  - intros [(b & Hb & <-) | Hp].
    + exists b. split; [|reflexivity].
      cbn [Router]. apply in_or_app. left. exact Hb.
    + destruct Hp as [<- | [<- | Hp]].
      * exists (mkBinding "GET" (basePathOf mi) (listHandler mi)).
        split; [|reflexivity]. cbn [Router].
        apply in_or_app. right. left. reflexivity.
      * exists (mkBinding "GET" (basePathOf mi +:+ "/:id") (getHandler mi)).
        split; [|apply itemPath_colon].
        cbn [Router]. apply in_or_app. right. right. left. reflexivity.
      * apply in_map_iff in Hp as (fk & <- & Hfk).
        apply List.filter_In in Hfk as [Hfk Hn].
        rewrite <- relatedPath_colon.
        destruct (reachable_consistent _ Hr') as [_ Hbound].
        destruct (Hbound (relatedPathOf mi fk)) as (b & Hb & Hpb).
        { cbn [RegisteredPaths]. apply pathsAfter_covers; assumption. }
        apply List.filter_In in Hb as [Hb _]. eauto.
Qed.

Lemma router_paths_run (order : list ModelInfo) (g g' : APIGenerator)
    (p : string) :
  Reachable g ->
  (forall mi, In mi order -> exists key, Models g !! key = Some mi) ->
  GenerateAPIIn g order = Returns g' ->
  (exists b, In b (Router g') /\ Path b = p)
  <-> (exists b, In b (Router g) /\ Path b = p)
      \/ exists mi, In mi order /\ In p (pathsWith ":id" mi).
Proof.
  unfold GenerateAPIIn.
  revert g. induction order as [|mi order IH]; intros g Hr Hm Hret.
  - simpl in Hret. injection Hret as <-.
    split; [auto | intros [H | (mi & [] & _)]; exact H].
  - apply each_Returns_cons in Hret as (g1 & Hstep & Hret).
    destruct (Hm mi (or_introl eq_refl)) as (key & Hkey).
    assert (H1 : after (generateModelAPI g mi) = g1)
      by (rewrite Hstep; reflexivity).
    rewrite (IH g1).
    + rewrite (router_paths_step g g1 key mi p Hr Hkey Hstep). split.
      * intros [[H | H] | (mi' & Hin & H)]; [auto | |].
        -- right. exists mi. split; [left; reflexivity | exact H].
        -- right. exists mi'. split; [right; exact Hin | exact H].
      * intros [H | (mi' & [<- | Hin] & H)]; [auto | auto |].
        right. exists mi'. auto.
    + rewrite <- H1. apply (reach_generateModelAPI g key mi Hr Hkey).
    + intros mi' Hin. rewrite <- H1, generateModelAPI_Models.
      apply Hm. right. exact Hin.
    + exact Hret.
Qed.

Section Documents.
Variable models : gmap string ModelInfo.

Lemma related_docs_loop (mi : ModelInfo) (fks : list ForeignKeyInfo)
    (paths : gmap string (gmap string OperationDoc)) (p : string) :
  is_Some
    (fold_left
       (fun paths fk =>
          if negb (String.eqb (RelatedModel fk) "")
          then <[relatedDocPath mi fk := relatedItem mi fk]> paths
          else paths)
       fks paths !! p)
  <-> is_Some (paths !! p)
      \/ exists fk, In fk fks /\ namesModel fk = true
                    /\ p = relatedDocPath mi fk.
Proof.
  revert paths. induction fks as [|fk fks IH]; intros paths; simpl.
  - split; [auto | intros [H | (fk & [] & _)]; exact H].
  - rewrite IH. unfold namesModel at 2.
    destruct (negb (String.eqb (RelatedModel fk) "")) eqn:Hn.
    + rewrite lookup_insert_is_Some'. split.
      * intros [[<- | H] | (fk' & Hin & Hn' & ->)]; [| auto |].
        -- right. exists fk. auto.
        -- right. exists fk'. auto.
      * intros [H | (fk' & [<- | Hin] & Hn' & ->)]; [auto | auto |].
        right. exists fk'. auto.
    + split.
      * intros [H | (fk' & Hin & Hn' & ->)]; [auto|].
        right. exists fk'. auto.
      * intros [H | (fk' & [<- | Hin] & Hn' & ->)]; [auto | |].
        -- unfold namesModel in Hn'. congruence.
        -- right. exists fk'. auto.
Qed.

Lemma buildModelPaths_keys (mi : ModelInfo)
    (paths : gmap string (gmap string OperationDoc)) (p : string) :
  is_Some (buildModelPaths models paths mi !! p)
  <-> is_Some (paths !! p) \/ In p (pathsWith "{id}" mi).
Proof.
  unfold buildModelPaths. rewrite related_docs_loop.
  rewrite !lookup_insert_is_Some'. unfold pathsWith. simpl. split.
  - intros [[<- | [<- | H]] | (fk & Hfk & Hn & ->)]; auto.
    right. right. right. apply in_map_iff. exists fk.
    split; [reflexivity|]. apply List.filter_In. auto.
  - intros [H | [<- | [<- | H]]]; auto.
    apply in_map_iff in H as (fk & <- & Hfk).
    apply List.filter_In in Hfk as [Hfk Hn]. right. exists fk. auto.
Qed.

Lemma document_keys (order : list ModelInfo)
    (paths : gmap string (gmap string OperationDoc)) (p : string) :
  is_Some (fold_left (buildModelPaths models) order paths !! p)
  <-> is_Some (paths !! p)
      \/ exists mi, In mi order /\ In p (pathsWith "{id}" mi).
Proof.
  revert paths. induction order as [|mi order IH]; intros paths; simpl.
  - split; [auto | intros [H | (mi & [] & _)]; exact H].
  - rewrite IH, buildModelPaths_keys. split.
    + intros [[H | H] | (mi' & Hin & H)]; [auto | |].
      * right. exists mi. auto.
      * right. exists mi'. auto.
    + intros [H | (mi' & [<- | Hin] & H)]; [auto | auto |].
      right. exists mi'. auto.
Qed.

Lemma buildModelPaths_shapes (mi : ModelInfo)
    (paths : gmap string (gmap string OperationDoc)) :
  map_Forall (fun _ item => operationsShape item) paths ->
  map_Forall (fun _ item => operationsShape item)
             (buildModelPaths models paths mi).
Proof.
  intros H. unfold buildModelPaths.
  assert (H2 : map_Forall (fun _ item => operationsShape item)
                 (<["/api/" +:+ PluralName mi +:+ "/{id}" :=
                      instanceItem models mi]>
                    (<["/api/" +:+ PluralName mi :=
                         collectionItem models mi]> paths))).
  { apply map_Forall_insert_2; [|apply map_Forall_insert_2; [|exact H]].
    - right. left. unfold instanceItem. rewrite !dom_insert_L, dom_empty_L.
      set_solver.
    - left. unfold collectionItem. rewrite !dom_insert_L, dom_empty_L.
      set_solver. }
  revert H2. generalize (<["/api/" +:+ PluralName mi +:+ "/{id}" :=
                             instanceItem models mi]>
                           (<["/api/" +:+ PluralName mi :=
                                collectionItem models mi]> paths)).
  induction (ForeignKeys mi) as [|fk fks IH]; intros acc Hacc; simpl;
    [exact Hacc|].
  apply IH. destruct (negb _); [|exact Hacc].
  apply map_Forall_insert_2; [|exact Hacc].
  right. right. unfold relatedItem. apply dom_singleton_L.
Qed.

End Documents.

Lemma registry_order (models : gmap string ModelInfo)
    (order : list ModelInfo) :
  Permutation order (map snd (map_to_list models)) ->
  forall mi, In mi order <-> exists key, models !! key = Some mi.
Proof.
  intros Hperm mi. split.
  - intros Hin. apply (Permutation_in _ Hperm) in Hin.
    apply in_map_iff in Hin as ([key mi'] & <- & Hin).
    exists key. apply elem_of_map_to_list, list_elem_of_In, Hin.
  - intros (key & Hkey).
    apply (Permutation_in _ (Permutation_sym Hperm)).
    apply in_map_iff. exists (key, mi). split; [reflexivity|].
    apply list_elem_of_In, elem_of_map_to_list, Hkey.
Qed.

(** X27. Every path document that [BuildPathsForAllModels] writes has
    the operations of a collection (get, post), of an item (get, put,
    delete) or of a relationship (get): each documented path offers GET, and
    none offers an operation outside these, also when two models write the
    same path and the later one replaces the earlier. *)
Theorem documented_operations (models : gmap string ModelInfo)
    (order : list ModelInfo) (p : string)
    (item : gmap string OperationDoc) :
  BuildPathsForAllModelsIn models order !! p = Some item ->
  operationsShape item /\ is_Some (item !! "get").
Proof.
  intros Hp.
  assert (Hshape : operationsShape item).
  { revert Hp. unfold BuildPathsForAllModelsIn.
    assert (H0 : map_Forall (fun _ item => operationsShape item)
                   (∅ : gmap string (gmap string OperationDoc)))
      by apply map_Forall_empty.
    revert H0.
    generalize (∅ : gmap string (gmap string OperationDoc)) as paths.
    induction order as [|mi order IH]; intros paths Hall Hp; simpl in Hp.
    - apply (Hall p item Hp).
    - apply (IH _ (buildModelPaths_shapes models mi paths Hall) Hp). }
  split; [exact Hshape|].
  apply elem_of_dom. destruct Hshape as [-> | [-> | ->]]; set_solver.
Qed.

Lemma documented_operations_witness :
  operationsShape (instanceItem (Models registered) postInfo)
  /\ is_Some (instanceItem (Models registered) postInfo !! "get").
Proof.
  apply (documented_operations (Models registered) [userInfo; postInfo]
           "/api/posts/{id}" (instanceItem (Models registered) postInfo)).
  vm_compute. reflexivity.
Defined.

(** X28. The path documents mirror the route table. For a generator a
    program has built by registrations only, after a [GenerateAPI] that
    returns and [BuildPathsForAllModels], in whatever orders the registry
    was walked: the paths of the router are the collection, item and
    relationship paths of the registered models with the identifier written
    [:id], and the documented paths are the same paths with it written
    [{id}]. *)
Theorem documented_paths_mirror_routes_of_returned_run
    (g : APIGenerator) (c : Call)
    (paths : gmap string (gmap string OperationDoc)) :
  Reachable g ->
  Router g = [] ->
  GenerateAPI g c ->
  panics c = false ->
  BuildPathsForAllModels (Models g) paths ->
  (forall p,
     (exists b, In b (Router (after c)) /\ Path b = p)
     <-> exists key mi, Models g !! key = Some mi
                        /\ In p (pathsWith ":id" mi))
  /\ (forall p,
        is_Some (paths !! p)
        <-> exists key mi, Models g !! key = Some mi
                           /\ In p (pathsWith "{id}" mi)).
Proof.
  intros Hr Hempty (order & Hperm & ->) Hret (order' & Hperm' & ->).
  pose proof (registry_order (Models g) order Hperm) as Ho.
  pose proof (registry_order (Models g) order' Hperm') as Ho'.
  split; intros p.
  - destruct (GenerateAPIIn g order) as [g'|g'] eqn:E; [|discriminate Hret].
    simpl.
    rewrite (router_paths_run order g g' p Hr
               (fun mi Hin => proj1 (Ho mi) Hin) E).
    rewrite Hempty. split.
    + intros [(b & [] & _) | (mi & Hin & Hp)].
      apply Ho in Hin as (key & Hkey). eauto.
    + intros (key & mi & Hkey & Hp). right. exists mi.
      split; [apply Ho; eauto | exact Hp].
  - unfold BuildPathsForAllModelsIn. rewrite document_keys. split.
    + intros [H | (mi & Hin & Hp)].
      * rewrite lookup_empty in H. destruct H as [? H]. discriminate H.
      * apply Ho' in Hin as (key & Hkey). eauto.
    + intros (key & mi & Hkey & Hp). right. exists mi.
      split; [apply Ho'; eauto | exact Hp].
Qed.

Lemma registered_documents :
  BuildPathsForAllModels (Models registered)
    (BuildPathsForAllModelsIn (Models registered) [userInfo; postInfo]).
Proof.
  exists [userInfo; postInfo]. split; [|reflexivity].
  assert (Hl : map snd (map_to_list (Models registered))
               = [userInfo; postInfo]
               \/ map snd (map_to_list (Models registered))
                  = [postInfo; userInfo])
    by (vm_compute; auto).
  destruct Hl as [-> | ->]; [apply Permutation_refl | apply perm_swap].
Qed.

Lemma documented_paths_mirror_routes_of_returned_run_witness :
  (forall p,
     (exists b,
        In b (Router (after (GenerateAPIIn registered [userInfo; postInfo])))
        /\ Path b = p)
     <-> exists key mi, Models registered !! key = Some mi
                        /\ In p (pathsWith ":id" mi))
  /\ (forall p,
        is_Some (BuildPathsForAllModelsIn (Models registered)
                   [userInfo; postInfo] !! p)
        <-> exists key mi, Models registered !! key = Some mi
                           /\ In p (pathsWith "{id}" mi)).
Proof.
  apply (documented_paths_mirror_routes_of_returned_run registered
           (GenerateAPIIn registered [userInfo; postInfo])
           (BuildPathsForAllModelsIn (Models registered)
              [userInfo; postInfo])).
  - exact registered_Reachable.
  - reflexivity.
  - exact registered_run.
  - vm_compute. reflexivity.
  - exact registered_documents.
Defined.

End PathFacts.

(** ** Runs the router refuses *)

Module RefusedRuns.
Import GoStrings Naming Reflect Apigen Handlers Vocabulary StringFacts.
Import AnalysisFacts RouteFacts ExampleFacts AnalysisShape RouteInvariants.

(** A walk that meets a model whose collection route the router holds
    panics, there or before. *)
Lemma walk_refused (order : list ModelInfo) (g : APIGenerator)
    (mi : ModelInfo) :
  In mi order ->
  routeBound (Router g) "GET" (basePathOf mi) = true ->
  panics (GenerateAPIIn g order) = true.
Proof.
  unfold GenerateAPIIn.
  revert g. induction order as [|mi0 order IH]; intros g Hin Hb;
    [destruct Hin|].
  simpl. destruct (generateModelAPI g mi0) as [g1|g1] eqn:E;
    [|reflexivity].
  simpl. destruct Hin as [-> | Hin].
  - rewrite (generateModelAPI_refused g mi Hb) in E. discriminate E.
  - apply IH; [exact Hin|].
    apply (grows_routeBound g); [|exact Hb].
    pose proof (generateModelAPI_grows g mi0) as H.
    rewrite E in H. exact H.
Qed.

(** A walk that returns met each plural name once. *)
Lemma returned_walk_plural_names (order : list ModelInfo)
    (g g' : APIGenerator) :
  GenerateAPIIn g order = Returns g' ->
  List.NoDup (map PluralName order).
Proof.
  unfold GenerateAPIIn.
  revert g. induction order as [|mi order IH]; intros g Hret;
    [constructor|].
  apply each_Returns_cons in Hret as (g1 & Hstep & Hret).
  simpl. constructor; [|apply (IH g1 Hret)].
  intros Hin. apply in_map_iff in Hin as (mi' & Hname & Hin).
  assert (Hb : routeBound (Router g1) "GET" (basePathOf mi') = true).
  { unfold basePathOf. rewrite Hname.
    pose proof (generateModelAPI_binds_first g mi) as H.
    rewrite Hstep in H. exact H. }
  pose proof (walk_refused order g1 mi' Hin Hb) as Hp.
  unfold GenerateAPIIn in Hp. rewrite Hret in Hp. discriminate Hp.
Qed.

Lemma NoDup_map_In {A B : Type} (f : A -> B) (l : list A) (x y : A) :
  List.NoDup (map f l) -> In x l -> In y l -> f x = f y -> x = y.
Proof.
  induction l as [|a l IH]; intros Hnd Hx Hy Hf; [destruct Hx|].
  simpl in Hnd. apply List.NoDup_cons_iff in Hnd as [Hnot Hnd].
  destruct Hx as [-> | Hx], Hy as [-> | Hy]; auto.
  - exfalso. apply Hnot. rewrite Hf. apply in_map, Hy.
  - exfalso. apply Hnot. rewrite <- Hf. apply in_map, Hx.
Qed.

(** X29. Two registered models with one plural name make [GenerateAPI]
    panic, whatever the order in which the registry is walked: the second
    of them to be met asks for the collection route of the first. *)
Theorem models_sharing_a_plural_name_make_GenerateAPI_panic
    (g : APIGenerator) (c : Call) (key1 key2 : string)
    (mi1 mi2 : ModelInfo) :
  GenerateAPI g c ->
  Models g !! key1 = Some mi1 ->
  Models g !! key2 = Some mi2 ->
  key1 <> key2 ->
  PluralName mi1 = PluralName mi2 ->
  panics c = true.
Proof.
  intros (order & Hperm & ->) H1 H2 Hne Hname.
  destruct (GenerateAPIIn g order) as [g'|g'] eqn:E; [|reflexivity].
  exfalso. apply returned_walk_plural_names in E.
  assert (Hnd : List.NoDup
                  (map (fun entry => PluralName (snd entry))
                       (map_to_list (Models g)))).
  { rewrite <- (map_map snd PluralName).
    apply (Permutation_NoDup (l := map PluralName order)); [|exact E].
    apply Permutation_map, Hperm. }
  apply Hne.
  assert (Heq : (key1, mi1) = (key2, mi2)).
  { apply (NoDup_map_In _ _ _ _ Hnd).
    - apply list_elem_of_In, elem_of_map_to_list, H1.
    - apply list_elem_of_In, elem_of_map_to_list, H2.
    - exact Hname. }
  congruence.
Qed.

Lemma models_sharing_a_plural_name_make_GenerateAPI_panic_witness :
  panics (GenerateAPIIn sharedName
            [buildModelInfo User "item"; buildModelInfo Tag "item"])
  = true.
Proof.
  apply (models_sharing_a_plural_name_make_GenerateAPI_panic sharedName
           (GenerateAPIIn sharedName
              [buildModelInfo User "item"; buildModelInfo Tag "item"])
           "User" "Tag"
           (buildModelInfo User "item") (buildModelInfo Tag "item")).
  - exists [buildModelInfo User "item"; buildModelInfo Tag "item"].
    split; [|reflexivity].
    assert (Hl : map snd (map_to_list (Models sharedName))
                 = [buildModelInfo User "item"; buildModelInfo Tag "item"]
                 \/ map snd (map_to_list (Models sharedName))
                    = [buildModelInfo Tag "item"; buildModelInfo User "item"])
      by (vm_compute; auto).
    destruct Hl as [-> | ->]; [apply Permutation_refl | apply perm_swap].
  - vm_compute. reflexivity.
  - vm_compute. reflexivity.
  - discriminate.
  - vm_compute. reflexivity.
Defined.

(** X30. [GenerateAPI] can be called once: on a generator with a
    registered model, a second call panics, whether the first returned or
    not and whatever the orders of the two walks, because the first model
    the first call met has its collection route in the router. *)
Theorem second_GenerateAPI_panics (g : APIGenerator) (c1 c2 : Call)
    (key : string) (mi : ModelInfo) :
  Models g !! key = Some mi ->
  GenerateAPI g c1 ->
  GenerateAPI (after c1) c2 ->
  panics c2 = true.
Proof.
  intros Hkey Hgen1 (order2 & Hperm2 & ->).
  destruct (GenerateAPI_order g c1 Hgen1) as (order1 & -> & Ho1).
  rewrite GenerateAPIIn_Models in Hperm2.
  destruct order1 as [|first order1].
  { exfalso. apply (Ho1 mi). eauto. }
  apply (walk_refused order2 _ first).
  - apply (Permutation_in _ (Permutation_sym Hperm2)).
    destruct (proj1 (Ho1 first) (or_introl eq_refl)) as (k & Hk).
    apply in_map_iff. exists (k, first). split; [reflexivity|].
    apply list_elem_of_In, elem_of_map_to_list, Hk.
  - unfold GenerateAPIIn. simpl.
    apply (next_after
             (fun g1 => routeBound (Router g1) "GET" (basePathOf first)
                        = true)).
    + apply generateModelAPI_binds_first.
    + intros g1 H1.
      apply (grows_routeBound g1); [|exact H1].
      apply (GenerateAPIIn_grows order1 g1).
Qed.

Lemma second_GenerateAPI_panics_witness :
  panics (GenerateAPIIn
            (after (GenerateAPIIn registered [userInfo; postInfo]))
            [userInfo; postInfo])
  = true.
Proof.
  apply (second_GenerateAPI_panics registered
           (GenerateAPIIn registered [userInfo; postInfo])
           (GenerateAPIIn
              (after (GenerateAPIIn registered [userInfo; postInfo]))
              [userInfo; postInfo])
           "Post" postInfo).
  - vm_compute. reflexivity.
  - exact registered_run.
  - exists [userInfo; postInfo]. split; [|reflexivity].
    rewrite GenerateAPIIn_Models.
    assert (Hl : map snd (map_to_list (Models registered))
                 = [userInfo; postInfo]
                 \/ map snd (map_to_list (Models registered))
                    = [postInfo; userInfo])
      by (vm_compute; auto).
    destruct Hl as [-> | ->]; [apply Permutation_refl | apply perm_swap].
Defined.

End RefusedRuns.
